(** * lightningd/opening: the channel-opening daemon

    A shallow embedding of [lightningd/opening/opening.c]: the parameter
    validator [check_config_bounds], the reserve rule [set_reserve], the
    funder path [open_channel], the fundee path [recv_channel] and [main].

    The daemon is a straight-line program that reads and writes three
    descriptors and leaves through [exit] on every failure.  It is embedded
    in a small monad that threads [struct state], consumes a script of
    inputs and collects the events the process performs, in order. *)

From Stdlib Require Import ZArith List String Bool Lia.
From Stdlib Require Import Strings.Byte.
Import ListNotations.

Local Open Scope string_scope.
Local Open Scope list_scope.
Local Open Scope Z_scope.

(** ** Machine integers

    [u64] values are integers in [0, 2^64); arithmetic on them wraps. *)

Definition u64_modulus : Z := 2 ^ 64.
Definition u32_modulus : Z := 2 ^ 32.
Definition u16_modulus : Z := 2 ^ 16.

Definition is_u64 (x : Z) : Prop := 0 <= x < u64_modulus.
Definition is_u32 (x : Z) : Prop := 0 <= x < u32_modulus.
Definition is_u16 (x : Z) : Prop := 0 <= x < u16_modulus.

Definition wrap64 (x : Z) : Z := x mod u64_modulus.

Definition add64 (a b : Z) : Z := wrap64 (a + b).
Definition sub64 (a b : Z) : Z := wrap64 (a - b).
Definition mul64 (a b : Z) : Z := wrap64 (a * b).
(* Unsigned division never wraps. *)
Definition div64 (a b : Z) : Z := a / b.

(** ** Collaborators outside this file

    The key types, the key derivation primitives, the commitment
    transaction builder and the signature functions live in other
    translation units ([bitcoin/], [ccan/], [lightningd/channel.h],
    [lightningd/crypto_sync.h]).  The daemon only passes their values
    around, so they are taken as an interface. *)

Inductive side : Type := LOCAL | REMOTE.

(** ** Data of the daemon *)

Record channel_config : Type := {
  dust_limit_satoshis : Z;            (* u64 *)
  max_htlc_value_in_flight_msat : Z;  (* u64 *)
  channel_reserve_satoshis : Z;       (* u64 *)
  minimum_depth : Z;                  (* u32 *)
  htlc_minimum_msat : Z;              (* u32 *)
  to_self_delay : Z;                  (* u16 *)
  max_accepted_htlcs : Z              (* u16 *)
}.

Definition set_channel_reserve_satoshis (c : channel_config) (v : Z)
  : channel_config :=
  {| dust_limit_satoshis := dust_limit_satoshis c;
     max_htlc_value_in_flight_msat := max_htlc_value_in_flight_msat c;
     channel_reserve_satoshis := v;
     minimum_depth := minimum_depth c;
     htlc_minimum_msat := htlc_minimum_msat c;
     to_self_delay := to_self_delay c;
     max_accepted_htlcs := max_accepted_htlcs c |}.

(* The integer fields of a config as the wire decoder delivers them. *)
Definition config_in_range (c : channel_config) : Prop :=
  is_u64 (dust_limit_satoshis c) /\
  is_u64 (max_htlc_value_in_flight_msat c) /\
  is_u64 (channel_reserve_satoshis c) /\
  is_u32 (minimum_depth c) /\
  is_u32 (htlc_minimum_msat c) /\
  is_u16 (to_self_delay c) /\
  is_u16 (max_accepted_htlcs c).

Class Externals : Type := {
  pubkey : Type;
  privkey : Type;
  sha256 : Type;
  sha256_double : Type;
  secp256k1_ecdsa_signature : Type;
  bitcoin_tx : Type;
  script : Type;
  crypto_state : Type;
  struct_channel : Type;
  (* hkdf_sha256 with empty salt and info [c-lightning], cut into the
     five fields of [struct keys]. *)
  hkdf_sha256_keys : privkey -> privkey * privkey * privkey * privkey * sha256;
  pubkey_from_privkey : privkey -> option pubkey;
  shachain_from_seed : sha256 -> Z -> sha256;
  secp256k1_ec_pubkey_create : sha256 -> option pubkey;
  bitcoin_redeem_2of2 : pubkey -> pubkey -> script;
  check_tx_sig :
    bitcoin_tx -> Z -> script -> pubkey -> secp256k1_ecdsa_signature -> bool;
  sign_tx_input :
    bitcoin_tx -> Z -> script -> privkey -> pubkey -> secp256k1_ecdsa_signature;
  (* The transport state after one more message sent or received. *)
  cs_after_write : crypto_state -> crypto_state;
  cs_after_read : crypto_state -> crypto_state;
  (* [new_channel], with the arguments in the order of the call; [None]
     is the NULL it returns for a configuration it cannot use. *)
  new_channel :
    sha256_double -> Z -> Z -> Z -> Z ->
    channel_config -> channel_config ->
    pubkey -> pubkey -> pubkey -> pubkey -> pubkey -> pubkey ->
    side -> option struct_channel;
  (* [channel_tx(ctx, channel, per_commitment_point, NULL, side)] *)
  channel_tx : struct_channel -> pubkey -> side -> bitcoin_tx;
  (* [tal(state, struct channel_config)] of [ccan/tal]: the object it
     hands back is not initialised, so its fields hold whatever the
     allocator left there; nothing is assumed about them. *)
  tal_channel_config : channel_config;
  (* [version()] of [version.h] *)
  version : string
}.

(* [struct channel_id]: 32 bytes. *)
Definition channel_id : Type := list byte.

(* [memset(&tmpid, 0xFF, sizeof(tmpid))] *)
Definition all_ff_channel_id : channel_id := repeat xff 32.

(* [structeq(a, b)]: the two structures hold the same bytes. *)
Definition structeq (a b : channel_id) : bool :=
  if list_eq_dec Byte.byte_eq_dec a b then true else false.

Arguments structeq : simpl never.
Arguments all_ff_channel_id : simpl never.

(* Status codes of [gen_opening_status_wire.h] used by this file. *)
Inductive opening_status : Type :=
| WIRE_OPENING_BAD_COMMAND
| WIRE_OPENING_KEY_DERIVATION_FAILED
| WIRE_OPENING_BAD_PARAM
| WIRE_OPENING_PEER_READ_FAILED
| WIRE_OPENING_PEER_WRITE_FAILED
| WIRE_OPENING_PEER_BAD_FUNDING
| WIRE_OPENING_PEER_BAD_CONFIG
| WIRE_OPENING_PEER_BAD_INITIAL_MESSAGE.

Section Daemon.

Context {E : Externals}.

Record points : Type := {
  funding_pubkey : pubkey;
  revocation_basepoint : pubkey;
  payment_basepoint : pubkey;
  delayed_payment_basepoint : pubkey
}.

Record secrets : Type := {
  funding_privkey : privkey;
  revocation_basepoint_secret : privkey;
  payment_basepoint_secret : privkey;
  delayed_payment_basepoint_secret : privkey
}.

(** *** Messages

    The generated codecs ([wire/gen_peer_wire.h] and the two
    [gen_opening_*_wire.h]) are not part of this file.  A message is
    represented by its type and its decoded fields: [towire_x] builds the
    message [x], and [fromwire_x] succeeds exactly on a message [x] and
    yields the fields. *)

Record open_channel_msg : Type := {
  oc_temporary_channel_id : channel_id;
  oc_funding_satoshis : Z;
  oc_push_msat : Z;
  oc_dust_limit_satoshis : Z;
  oc_max_htlc_value_in_flight_msat : Z;
  oc_channel_reserve_satoshis : Z;
  oc_htlc_minimum_msat : Z;
  oc_feerate_per_kw : Z;
  oc_to_self_delay : Z;
  oc_max_accepted_htlcs : Z;
  oc_funding_pubkey : pubkey;
  oc_revocation_basepoint : pubkey;
  oc_payment_basepoint : pubkey;
  oc_delayed_payment_basepoint : pubkey;
  oc_first_per_commitment_point : pubkey
}.

Record accept_channel_msg : Type := {
  ac_temporary_channel_id : channel_id;
  ac_dust_limit_satoshis : Z;
  ac_max_htlc_value_in_flight_msat : Z;
  ac_channel_reserve_satoshis : Z;
  ac_minimum_depth : Z;
  ac_htlc_minimum_msat : Z;
  ac_to_self_delay : Z;
  ac_max_accepted_htlcs : Z;
  ac_funding_pubkey : pubkey;
  ac_revocation_basepoint : pubkey;
  ac_payment_basepoint : pubkey;
  ac_delayed_payment_basepoint : pubkey;
  ac_first_per_commitment_point : pubkey
}.

Record funding_created_msg : Type := {
  fc_temporary_channel_id : channel_id;
  fc_funding_txid : sha256_double;
  fc_funding_output_index : Z;
  fc_signature : secp256k1_ecdsa_signature
}.

Record funding_signed_msg : Type := {
  fs_channel_id : channel_id;
  fs_signature : secp256k1_ecdsa_signature
}.

Inductive peer_msg : Type :=
| Open_channel (m : open_channel_msg)
| Accept_channel (m : accept_channel_msg)
| Funding_created (m : funding_created_msg)
| Funding_signed (m : funding_signed_msg)
| Error_msg (id : option channel_id) (data : string)
| Other_peer_msg (raw : list byte).

(* Requests of the supervisor, read from [REQ_FD]. *)
Record opening_init_msg : Type := {
  init_localconf : channel_config;
  init_max_to_self_delay : Z;
  init_min_effective_htlc_capacity_msat : Z;
  init_cs : crypto_state;
  init_seed : privkey
}.

Inductive control_msg : Type :=
| Opening_init (m : opening_init_msg)
| Opening_open (funding_sat push : Z) (feerate : Z) (max_minimum_depth : Z)
| Opening_accept (min_feerate max_feerate : Z) (peer_bytes : peer_msg)
| Opening_open_funding (txid : sha256_double) (txout : Z)
| Opening_exit_req
| Other_control_msg (type : Z).

(* What the daemon writes on [STATUS_FD]. *)
Inductive status_msg : Type :=
| Opening_open_resp (our_funding their_funding : pubkey)
| Opening_open_funding_resp
    (remoteconf : channel_config) (sig : secp256k1_ecdsa_signature)
    (cs : crypto_state)
    (their_revocation their_payment their_delayed : pubkey)
    (their_per_commit : pubkey)
| Opening_accept_resp
    (txid : sha256_double) (txout : Z)
    (remoteconf : channel_config) (theirsig : secp256k1_ecdsa_signature)
    (cs : crypto_state)
    (their_funding their_revocation their_payment their_delayed : pubkey)
    (their_per_commit : pubkey)
| Status_failed (code : opening_status) (fmt : string).

(** *** The negotiation state, [struct state] *)

Record state : Type := {
  cs : crypto_state;
  next_per_commit : side -> pubkey;
  funding_satoshis : Z;
  push_msat : Z;
  feerate_per_kw : Z;
  funding_txid : sha256_double;
  funding_txout : Z;
  our_secrets : secrets;
  shaseed : sha256;
  localconf : channel_config;
  remoteconf : channel_config;
  max_to_self_delay : Z;
  min_effective_htlc_capacity_msat : Z;
  channel : option struct_channel
}.


(* Assignments to single fields of [struct state]. *)
Definition set_cs (s : state) (v : crypto_state) : state :=
  {| cs := v; next_per_commit := next_per_commit s;
     funding_satoshis := funding_satoshis s; push_msat := push_msat s;
     feerate_per_kw := feerate_per_kw s; funding_txid := funding_txid s;
     funding_txout := funding_txout s; our_secrets := our_secrets s;
     shaseed := shaseed s; localconf := localconf s;
     remoteconf := remoteconf s; max_to_self_delay := max_to_self_delay s;
     min_effective_htlc_capacity_msat := min_effective_htlc_capacity_msat s;
     channel := channel s |}.

Definition set_next_per_commit (s : state) (which : side) (v : pubkey)
  : state :=
  {| cs := cs s;
     next_per_commit := fun sd =>
       match which, sd with
       | LOCAL, LOCAL | REMOTE, REMOTE => v
       | _, _ => next_per_commit s sd
       end;
     funding_satoshis := funding_satoshis s; push_msat := push_msat s;
     feerate_per_kw := feerate_per_kw s; funding_txid := funding_txid s;
     funding_txout := funding_txout s; our_secrets := our_secrets s;
     shaseed := shaseed s; localconf := localconf s;
     remoteconf := remoteconf s; max_to_self_delay := max_to_self_delay s;
     min_effective_htlc_capacity_msat := min_effective_htlc_capacity_msat s;
     channel := channel s |}.

Definition set_funding (s : state) (sat push feerate : Z) : state :=
  {| cs := cs s; next_per_commit := next_per_commit s;
     funding_satoshis := sat; push_msat := push;
     feerate_per_kw := feerate; funding_txid := funding_txid s;
     funding_txout := funding_txout s; our_secrets := our_secrets s;
     shaseed := shaseed s; localconf := localconf s;
     remoteconf := remoteconf s; max_to_self_delay := max_to_self_delay s;
     min_effective_htlc_capacity_msat := min_effective_htlc_capacity_msat s;
     channel := channel s |}.

Definition set_funding_outpoint (s : state) (txid : sha256_double) (txout : Z)
  : state :=
  {| cs := cs s; next_per_commit := next_per_commit s;
     funding_satoshis := funding_satoshis s; push_msat := push_msat s;
     feerate_per_kw := feerate_per_kw s; funding_txid := txid;
     funding_txout := txout; our_secrets := our_secrets s;
     shaseed := shaseed s; localconf := localconf s;
     remoteconf := remoteconf s; max_to_self_delay := max_to_self_delay s;
     min_effective_htlc_capacity_msat := min_effective_htlc_capacity_msat s;
     channel := channel s |}.

Definition set_keys (s : state) (sec : secrets) (seed : sha256) : state :=
  {| cs := cs s; next_per_commit := next_per_commit s;
     funding_satoshis := funding_satoshis s; push_msat := push_msat s;
     feerate_per_kw := feerate_per_kw s; funding_txid := funding_txid s;
     funding_txout := funding_txout s; our_secrets := sec;
     shaseed := seed; localconf := localconf s;
     remoteconf := remoteconf s; max_to_self_delay := max_to_self_delay s;
     min_effective_htlc_capacity_msat := min_effective_htlc_capacity_msat s;
     channel := channel s |}.

Definition set_localconf (s : state) (c : channel_config) : state :=
  {| cs := cs s; next_per_commit := next_per_commit s;
     funding_satoshis := funding_satoshis s; push_msat := push_msat s;
     feerate_per_kw := feerate_per_kw s; funding_txid := funding_txid s;
     funding_txout := funding_txout s; our_secrets := our_secrets s;
     shaseed := shaseed s; localconf := c;
     remoteconf := remoteconf s; max_to_self_delay := max_to_self_delay s;
     min_effective_htlc_capacity_msat := min_effective_htlc_capacity_msat s;
     channel := channel s |}.

Definition set_remoteconf (s : state) (c : channel_config) : state :=
  {| cs := cs s; next_per_commit := next_per_commit s;
     funding_satoshis := funding_satoshis s; push_msat := push_msat s;
     feerate_per_kw := feerate_per_kw s; funding_txid := funding_txid s;
     funding_txout := funding_txout s; our_secrets := our_secrets s;
     shaseed := shaseed s; localconf := localconf s;
     remoteconf := c; max_to_self_delay := max_to_self_delay s;
     min_effective_htlc_capacity_msat := min_effective_htlc_capacity_msat s;
     channel := channel s |}.

Definition set_limits (s : state) (delay capacity : Z) : state :=
  {| cs := cs s; next_per_commit := next_per_commit s;
     funding_satoshis := funding_satoshis s; push_msat := push_msat s;
     feerate_per_kw := feerate_per_kw s; funding_txid := funding_txid s;
     funding_txout := funding_txout s; our_secrets := our_secrets s;
     shaseed := shaseed s; localconf := localconf s;
     remoteconf := remoteconf s; max_to_self_delay := delay;
     min_effective_htlc_capacity_msat := capacity;
     channel := channel s |}.

Definition set_channel (s : state) (c : option struct_channel) : state :=
  {| cs := cs s; next_per_commit := next_per_commit s;
     funding_satoshis := funding_satoshis s; push_msat := push_msat s;
     feerate_per_kw := feerate_per_kw s; funding_txid := funding_txid s;
     funding_txout := funding_txout s; our_secrets := our_secrets s;
     shaseed := shaseed s; localconf := localconf s;
     remoteconf := remoteconf s; max_to_self_delay := max_to_self_delay s;
     min_effective_htlc_capacity_msat := min_effective_htlc_capacity_msat s;
     channel := c |}.

(** *** The outside world

    What the process does is recorded as a list of events.  What it will
    read is scripted: [peer_in] holds the outcome of each
    [sync_crypto_read] on [PEER_FD] ([None] for a failed read), [req_in]
    the outcome of each [wire_sync_read] on [REQ_FD], and [peer_wr] the
    outcome of each [sync_crypto_write].  A script that has run out means
    a closed descriptor for reads and a successful write for writes. *)

Inductive event : Type :=
| EvPeerWrite (m : peer_msg) (ok : bool)
| EvPeerRead (m : option peer_msg)
| EvStatus (m : status_msg)
| EvReqRead (m : option control_msg)
| EvFdPass
| EvStdout (line : string).

Record world : Type := {
  peer_in : list (option peer_msg);
  peer_wr : list bool;
  req_in : list (option control_msg)
}.

(* How a process ends unless it returns from [main]. *)
Inductive exit_status : Type :=
| ExitOk
| ExitFailed (code : opening_status) (fmt : string).

Inductive result (A : Type) : Type :=
| Ret (a : A) (s : state) (w : world)
| Exit (e : exit_status).

Arguments Ret {A} a s w.
Arguments Exit {A} e.

Definition M (A : Type) : Type := state -> world -> list event * result A.

Definition ret {A : Type} (a : A) : M A := fun s w => ([], Ret a s w).

Definition bind {A B : Type} (m : M A) (f : A -> M B) : M B :=
  fun s w =>
    match m s w with
    | (t, Ret a s' w') =>
        match f a s' w' with
        | (t', r) => (t ++ t', r)
        end
    | (t, Exit e) => (t, Exit e)
    end.

End Daemon.

Arguments Ret {E A} a s w.
Arguments Exit {E A} e.

Notation "x <- c1 ;; c2" := (bind c1 (fun x => c2))
  (at level 61, c1 at next level, right associativity).
Notation "c1 ;; c2" := (bind c1 (fun _ => c2))
  (at level 61, right associativity).

Section Program.

Context {E : Externals}.

(** *** Primitive actions

    Modelled from the spec: [sync_crypto_write] and [sync_crypto_read]
    ([lightningd/crypto_sync.h]), [wire_sync_write] and [wire_sync_read]
    ([wire/wire_sync.h]), [status_send] ([status.h]) and [fdpass_send]
    ([ccan/fdpass]) are not in this file.  Each is one blocking send or
    receive on its descriptor, recorded as one event; a read yields the
    next message of the script or NULL. *)

Definition get : M state := fun s w => ([], Ret s s w).
Definition put (s' : state) : M unit := fun _ w => ([], Ret tt s' w).
Definition modify (f : state -> state) : M unit := fun s w => ([], Ret tt (f s) w).

(* [if (cond) action;] *)
Definition when (cond : bool) (action : M unit) : M unit :=
  if cond then action else ret tt.

(* [sync_crypto_write(&state->cs, PEER_FD, msg)] *)
Definition sync_crypto_write (msg : peer_msg) : M bool :=
  fun s w =>
    let ok := hd true (peer_wr w) in
    ([EvPeerWrite msg ok],
     Ret ok (set_cs s (cs_after_write (cs s)))
         {| peer_in := peer_in w; peer_wr := tl (peer_wr w);
            req_in := req_in w |}).

(* [sync_crypto_read(state, &state->cs, PEER_FD)]; [None] is NULL. *)
Definition sync_crypto_read : M (option peer_msg) :=
  fun s w =>
    let msg := hd None (peer_in w) in
    ([EvPeerRead msg],
     Ret msg
         (match msg with
          | Some _ => set_cs s (cs_after_read (cs s))
          | None => s
          end)
         {| peer_in := tl (peer_in w); peer_wr := peer_wr w;
            req_in := req_in w |}).

(* [wire_sync_write(STATUS_FD, msg)] and [status_send(msg)] *)
Definition wire_sync_write (msg : status_msg) : M unit :=
  fun s w => ([EvStatus msg], Ret tt s w).

Definition status_send (msg : status_msg) : M unit :=
  fun s w => ([EvStatus msg], Ret tt s w).

(* [wire_sync_read(state, REQ_FD)]; [None] is NULL. *)
Definition wire_sync_read : M (option control_msg) :=
  fun s w =>
    let msg := hd None (req_in w) in
    ([EvReqRead msg],
     Ret msg s
         {| peer_in := peer_in w; peer_wr := peer_wr w;
            req_in := tl (req_in w) |}).

(* [fdpass_send(REQ_FD, PEER_FD)] *)
Definition fdpass_send : M unit := fun s w => ([EvFdPass], Ret tt s w).

(* [exit(code)] *)
Definition exit {A : Type} (e : exit_status) : M A := fun _ _ => ([], Exit e).

(** Modelled from the spec: [status_failed] of [status.h] is not in this
    file.  A local failure is reported to the supervisor as a status of
    the given kind, no peer error is sent, and the process exits nonzero.
    The format string stands for the formatted text. *)
Definition status_failed {A : Type} (code : opening_status) (fmt : string)
  : M A :=
  fun _ _ => ([EvStatus (Status_failed code fmt)], Exit (ExitFailed code fmt)).

(** Modelled from the spec: [peer_failed] of [lightningd/peer_failed.h] is
    not in this file.  Failing the channel emits an error frame to the
    peer, a best-effort write through the transport state whose outcome
    is ignored, then emits a structured status of the given kind to the
    supervisor and exits nonzero.  The third argument of every call in
    this file is NULL, hence no channel id. *)
Definition peer_failed {A : Type} (code : opening_status) (fmt : string)
  : M A :=
  sync_crypto_write (Error_msg None fmt) ;;
  status_failed code fmt.

(* [if (!x) peer_failed(...)] for a pointer or a decoder result. *)
Definition or_peer_failed {A : Type} (x : option A)
    (code : opening_status) (fmt : string) : M A :=
  match x with
  | Some a => ret a
  | None => peer_failed code fmt
  end.

Definition or_status_failed {A : Type} (x : option A)
    (code : opening_status) (fmt : string) : M A :=
  match x with
  | Some a => ret a
  | None => status_failed code fmt
  end.

(** *** Decoders

    Modelled from the spec: the generated [fromwire_*] functions are not
    in this file.  Each succeeds exactly on a message of its own type and
    yields the fields of that message; on NULL or any other message it
    fails and the caller leaves through its failure branch. *)

Definition fromwire_open_channel (msg : peer_msg) : option open_channel_msg :=
  match msg with Open_channel m => Some m | _ => None end.

Definition fromwire_accept_channel (msg : peer_msg)
  : option accept_channel_msg :=
  match msg with Accept_channel m => Some m | _ => None end.

Definition fromwire_funding_created (msg : peer_msg)
  : option funding_created_msg :=
  match msg with Funding_created m => Some m | _ => None end.

Definition fromwire_funding_signed (msg : peer_msg)
  : option funding_signed_msg :=
  match msg with Funding_signed m => Some m | _ => None end.

Definition fromwire_opening_init (msg : option control_msg)
  : option opening_init_msg :=
  match msg with Some (Opening_init m) => Some m | _ => None end.

Definition fromwire_opening_open (msg : option control_msg)
  : option (Z * Z * Z * Z) :=
  match msg with
  | Some (Opening_open sat push feerate depth) => Some (sat, push, feerate, depth)
  | _ => None
  end.

Definition fromwire_opening_accept (msg : option control_msg)
  : option (Z * Z * peer_msg) :=
  match msg with
  | Some (Opening_accept lo hi peer_bytes) => Some (lo, hi, peer_bytes)
  | _ => None
  end.

Definition fromwire_opening_open_funding (msg : option control_msg)
  : option (sha256_double * Z) :=
  match msg with
  | Some (Opening_open_funding txid txout) => Some (txid, txout)
  | _ => None
  end.

Definition fromwire_opening_exit_req (msg : option control_msg) : bool :=
  match msg with Some Opening_exit_req => true | _ => false end.

(** *** derive_our_basepoints *)

Definition derive_our_basepoints (seed : privkey) : M points :=
  let '(f, r, p, d, keys_shaseed) := hkdf_sha256_keys seed in
  modify (fun s =>
    set_keys s
      {| funding_privkey := f;
         revocation_basepoint_secret := r;
         payment_basepoint_secret := p;
         delayed_payment_basepoint_secret := d |}
      (shaseed s)) ;;
  pts <- or_status_failed
    (match pubkey_from_privkey f with
     | None => None
     | Some fp =>
       match pubkey_from_privkey r with
       | None => None
       | Some rp =>
         match pubkey_from_privkey p with
         | None => None
         | Some pp =>
           match pubkey_from_privkey d with
           | None => None
           | Some dp =>
             Some {| funding_pubkey := fp;
                     revocation_basepoint := rp;
                     payment_basepoint := pp;
                     delayed_payment_basepoint := dp |}
           end
         end
       end
     end)
    WIRE_OPENING_KEY_DERIVATION_FAILED "seed = %s" ;;
  modify (fun s => set_keys s (our_secrets s) keys_shaseed) ;;
  let per_commit_secret := shachain_from_seed keys_shaseed 281474976710655 in
  first_per_commit <- or_status_failed
    (secp256k1_ec_pubkey_create per_commit_secret)
    WIRE_OPENING_KEY_DERIVATION_FAILED
    "first_per_commit create failed, secret = %s" ;;
  modify (fun s => set_next_per_commit s LOCAL first_per_commit) ;;
  ret pts.

(** *** check_config_bounds *)

(* The local [reserve_msat] once the highest reserve is taken. *)
Definition reserve_msat_of (state : state) (remoteconf : channel_config) : Z :=
  let reserve_msat := mul64 (channel_reserve_satoshis remoteconf) 1000 in
  if mul64 (channel_reserve_satoshis (localconf state)) 1000 >? reserve_msat
  then mul64 (channel_reserve_satoshis (localconf state)) 1000
  else reserve_msat.

(* The local [capacity_msat] once capped by the in-flight limit. *)
Definition capacity_msat_of (state : state) (remoteconf : channel_config) : Z :=
  let capacity_msat :=
    sub64 (mul64 (funding_satoshis state) 1000)
          (reserve_msat_of state remoteconf) in
  if max_htlc_value_in_flight_msat remoteconf <? capacity_msat
  then max_htlc_value_in_flight_msat remoteconf
  else capacity_msat.

Definition check_config_bounds (remoteconf : channel_config) : M unit :=
  state <- get ;;
  when (to_self_delay remoteconf >? max_to_self_delay state)
    (peer_failed WIRE_OPENING_PEER_BAD_CONFIG
       "to_self_delay %u larger than %u") ;;
  (* Overflow check before capacity calc. *)
  when (channel_reserve_satoshis remoteconf >? funding_satoshis state)
    (peer_failed WIRE_OPENING_PEER_BAD_CONFIG
       "Invalid channel_reserve_satoshis %PRIu64 for funding_satoshis %PRIu64") ;;
  let capacity_msat := capacity_msat_of state remoteconf in
  when (mul64 (htlc_minimum_msat remoteconf) 1000 >? capacity_msat)
    (peer_failed WIRE_OPENING_PEER_BAD_CONFIG
       "Invalid htlc_minimum_msat %u for funding_satoshis %PRIu64 capacity_msat %PRIu64") ;;
  when (capacity_msat <? min_effective_htlc_capacity_msat state)
    (peer_failed WIRE_OPENING_PEER_BAD_CONFIG
       "Channel capacity with funding %PRIu64 msat, reserves %PRIu64/%PRIu64 msat, max_htlc_value_in_flight_msat %PRIu64 is %PRIu64 msat, which is below %PRIu64 msat") ;;
  (* We don't worry about how many HTLCs they accept, as long as > 0! *)
  when (max_accepted_htlcs remoteconf =? 0)
    (peer_failed WIRE_OPENING_PEER_BAD_CONFIG
       "max_accepted_htlcs %u invalid") ;;
  when (max_accepted_htlcs remoteconf >? 511)
    (peer_failed WIRE_OPENING_PEER_BAD_CONFIG
       "max_accepted_htlcs %u too large").

(** *** Commitment signatures *)

Definition check_commit_sig (our_funding_key their_funding_key : pubkey)
    (tx : bitcoin_tx) (remotesig : secp256k1_ecdsa_signature) : bool :=
  let wscript := bitcoin_redeem_2of2 our_funding_key their_funding_key in
  check_tx_sig tx 0 wscript their_funding_key remotesig.

Definition sign_remote_commit (state : state)
    (our_funding_key their_funding_key : pubkey) (tx : bitcoin_tx)
  : secp256k1_ecdsa_signature :=
  let wscript := bitcoin_redeem_2of2 our_funding_key their_funding_key in
  (* Commit tx only has one input: funding tx. *)
  sign_tx_input tx 0 wscript (funding_privkey (our_secrets state))
                our_funding_key.

(* We always set channel_reserve_satoshis to 1%, rounded up. *)
Definition set_reserve (funding : Z) : Z :=
  div64 (add64 funding 99) 100.

(** *** What the decoders store

    [fromwire_accept_channel] and [fromwire_open_channel] write the
    peer's parameters into [state->remoteconf] and its keys into
    [theirs]. *)

Definition accept_remoteconf (a : accept_channel_msg) : channel_config :=
  {| dust_limit_satoshis := ac_dust_limit_satoshis a;
     max_htlc_value_in_flight_msat := ac_max_htlc_value_in_flight_msat a;
     channel_reserve_satoshis := ac_channel_reserve_satoshis a;
     minimum_depth := ac_minimum_depth a;
     htlc_minimum_msat := ac_htlc_minimum_msat a;
     to_self_delay := ac_to_self_delay a;
     max_accepted_htlcs := ac_max_accepted_htlcs a |}.

Definition accept_points (a : accept_channel_msg) : points :=
  {| funding_pubkey := ac_funding_pubkey a;
     revocation_basepoint := ac_revocation_basepoint a;
     payment_basepoint := ac_payment_basepoint a;
     delayed_payment_basepoint := ac_delayed_payment_basepoint a |}.

(* open_channel has no [minimum_depth]: [fromwire_open_channel] writes the
   other six fields of the struct it is given and leaves that one as it
   is in [old], which for [recv_channel] is the struct just allocated. *)
Definition open_remoteconf (o : open_channel_msg) (old : channel_config)
  : channel_config :=
  {| dust_limit_satoshis := oc_dust_limit_satoshis o;
     max_htlc_value_in_flight_msat := oc_max_htlc_value_in_flight_msat o;
     channel_reserve_satoshis := oc_channel_reserve_satoshis o;
     minimum_depth := minimum_depth old;
     htlc_minimum_msat := oc_htlc_minimum_msat o;
     to_self_delay := oc_to_self_delay o;
     max_accepted_htlcs := oc_max_accepted_htlcs o |}.

Definition open_points (o : open_channel_msg) : points :=
  {| funding_pubkey := oc_funding_pubkey o;
     revocation_basepoint := oc_revocation_basepoint o;
     payment_basepoint := oc_payment_basepoint o;
     delayed_payment_basepoint := oc_delayed_payment_basepoint o |}.

(** *** The funder path *)

Definition open_channel (ours : points) (max_minimum_depth : Z) : M unit :=
  modify (fun state =>
    set_localconf state
      (set_channel_reserve_satoshis (localconf state)
         (set_reserve (funding_satoshis state)))) ;;
  (* We don't support more than one channel, so this is easy. *)
  let tmpid := all_ff_channel_id in
  state <- get ;;
  when (funding_satoshis state >=? Z.shiftl 1 24)
    (peer_failed WIRE_OPENING_BAD_PARAM "funding_satoshis must be < 2^24") ;;
  when (push_msat state >? mul64 1000 (funding_satoshis state))
    (peer_failed WIRE_OPENING_BAD_PARAM "push-msat must be < %PRIu64") ;;
  ok <- sync_crypto_write
    (Open_channel
       {| oc_temporary_channel_id := tmpid;
          oc_funding_satoshis := funding_satoshis state;
          oc_push_msat := push_msat state;
          oc_dust_limit_satoshis := dust_limit_satoshis (localconf state);
          oc_max_htlc_value_in_flight_msat :=
            max_htlc_value_in_flight_msat (localconf state);
          oc_channel_reserve_satoshis :=
            channel_reserve_satoshis (localconf state);
          oc_htlc_minimum_msat := htlc_minimum_msat (localconf state);
          oc_feerate_per_kw := feerate_per_kw state;
          oc_to_self_delay := to_self_delay (localconf state);
          oc_max_accepted_htlcs := max_accepted_htlcs (localconf state);
          oc_funding_pubkey := funding_pubkey ours;
          oc_revocation_basepoint := revocation_basepoint ours;
          oc_payment_basepoint := payment_basepoint ours;
          oc_delayed_payment_basepoint := delayed_payment_basepoint ours;
          oc_first_per_commitment_point := next_per_commit state LOCAL |}) ;;
  when (negb ok)
    (peer_failed WIRE_OPENING_PEER_WRITE_FAILED "Writing open_channel") ;;
  msg <- sync_crypto_read ;;
  msg <- or_peer_failed msg
    WIRE_OPENING_PEER_READ_FAILED "Reading accept_channel" ;;
  a <- or_peer_failed (fromwire_accept_channel msg)
    WIRE_OPENING_PEER_READ_FAILED "Parsing accept_channel %s" ;;
  let tmpid2 := ac_temporary_channel_id a in
  modify (fun state =>
    set_next_per_commit (set_remoteconf state (accept_remoteconf a))
      REMOTE (ac_first_per_commitment_point a)) ;;
  let theirs := accept_points a in
  when (negb (structeq tmpid tmpid2))
    (peer_failed WIRE_OPENING_PEER_READ_FAILED
       "accept_channel ids don't match: sent %s got %s") ;;
  state <- get ;;
  when (minimum_depth (remoteconf state) >? max_minimum_depth)
    (peer_failed WIRE_OPENING_BAD_PARAM "minimum_depth %u larger than %u") ;;
  check_config_bounds (remoteconf state) ;;
  (* Now, ask master create a transaction to pay those two addresses. *)
  wire_sync_write
    (Opening_open_resp (funding_pubkey ours) (funding_pubkey theirs)) ;;
  (* Expect funding tx. *)
  msg <- wire_sync_read ;;
  outpoint <- or_peer_failed (fromwire_opening_open_funding msg)
    WIRE_OPENING_PEER_READ_FAILED "Expected valid opening_open_funding: %s" ;;
  modify (fun state => set_funding_outpoint state (fst outpoint) (snd outpoint)) ;;
  state <- get ;;
  chan <- or_peer_failed
    (new_channel (funding_txid state) (funding_txout state)
       (funding_satoshis state) (push_msat state) (feerate_per_kw state)
       (localconf state) (remoteconf state)
       (revocation_basepoint ours) (revocation_basepoint theirs)
       (payment_basepoint ours) (payment_basepoint theirs)
       (delayed_payment_basepoint ours) (delayed_payment_basepoint theirs)
       LOCAL)
    WIRE_OPENING_BAD_PARAM "could not create channel with given config" ;;
  modify (fun state => set_channel state (Some chan)) ;;
  state <- get ;;
  let tx := channel_tx chan (next_per_commit state REMOTE) REMOTE in
  let sig :=
    sign_remote_commit state (funding_pubkey ours) (funding_pubkey theirs) tx in
  ok <- sync_crypto_write
    (Funding_created
       {| fc_temporary_channel_id := tmpid;
          fc_funding_txid := funding_txid state;
          fc_funding_output_index := funding_txout state;
          fc_signature := sig |}) ;;
  when (negb ok)
    (peer_failed WIRE_OPENING_PEER_WRITE_FAILED "Writing funding_created") ;;
  msg <- sync_crypto_read ;;
  msg <- or_peer_failed msg
    WIRE_OPENING_PEER_READ_FAILED "Reading funding_signed" ;;
  fs <- or_peer_failed (fromwire_funding_signed msg)
    WIRE_OPENING_PEER_READ_FAILED "Parsing funding_signed" ;;
  let tmpid2 := fs_channel_id fs in
  let sig := fs_signature fs in
  when (negb (structeq tmpid tmpid2))
    (peer_failed WIRE_OPENING_PEER_READ_FAILED
       "funding_signed ids don't match: sent %s got %s") ;;
  state <- get ;;
  let tx := channel_tx chan (next_per_commit state LOCAL) LOCAL in
  when (negb (check_commit_sig (funding_pubkey ours) (funding_pubkey theirs)
                tx sig))
    (peer_failed WIRE_OPENING_PEER_READ_FAILED
       "Bad signature %s on tx %s using key %s") ;;
  state <- get ;;
  status_send
    (Opening_open_funding_resp (remoteconf state) sig (cs state)
       (revocation_basepoint theirs) (payment_basepoint theirs)
       (delayed_payment_basepoint theirs)
       (next_per_commit state REMOTE)).

(** *** The fundee path

    [peer_msg] is the message the peer sent which caused gossip to stop: it
    should be an open_channel. *)

Definition recv_channel (ours : points) (min_feerate max_feerate : Z)
    (peer_msg : peer_msg) : M unit :=
  (* [state->remoteconf = tal(state, struct channel_config);] *)
  modify (fun state => set_remoteconf state tal_channel_config) ;;
  o <- or_peer_failed (fromwire_open_channel peer_msg)
    WIRE_OPENING_PEER_BAD_INITIAL_MESSAGE "Parsing open_channel %s" ;;
  let tmpid := oc_temporary_channel_id o in
  modify (fun state =>
    set_next_per_commit
      (set_remoteconf
         (set_funding state (oc_funding_satoshis o) (oc_push_msat o)
            (oc_feerate_per_kw o))
         (open_remoteconf o (remoteconf state)))
      REMOTE (oc_first_per_commitment_point o)) ;;
  let theirs := open_points o in
  state <- get ;;
  when (funding_satoshis state >=? Z.shiftl 1 24)
    (peer_failed WIRE_OPENING_PEER_BAD_FUNDING
       "funding_satoshis %PRIu64 too large") ;;
  when (push_msat state >? mul64 (funding_satoshis state) 1000)
    (peer_failed WIRE_OPENING_PEER_BAD_FUNDING
       "push_msat %PRIu64 too large for funding_satoshis %PRIu64") ;;
  when (feerate_per_kw state <? min_feerate)
    (peer_failed WIRE_OPENING_PEER_BAD_FUNDING
       "feerate_per_kw %u below minimum %u") ;;
  when (feerate_per_kw state >? max_feerate)
    (peer_failed WIRE_OPENING_PEER_BAD_FUNDING
       "feerate_per_kw %u above maximum %u") ;;
  modify (fun state =>
    set_localconf state
      (set_channel_reserve_satoshis (localconf state)
         (set_reserve (funding_satoshis state)))) ;;
  state <- get ;;
  check_config_bounds (remoteconf state) ;;
  ok <- sync_crypto_write
    (Accept_channel
       {| ac_temporary_channel_id := tmpid;
          ac_dust_limit_satoshis := dust_limit_satoshis (localconf state);
          ac_max_htlc_value_in_flight_msat :=
            max_htlc_value_in_flight_msat (localconf state);
          ac_channel_reserve_satoshis :=
            channel_reserve_satoshis (localconf state);
          ac_minimum_depth := minimum_depth (localconf state);
          ac_htlc_minimum_msat := htlc_minimum_msat (localconf state);
          ac_to_self_delay := to_self_delay (localconf state);
          ac_max_accepted_htlcs := max_accepted_htlcs (localconf state);
          ac_funding_pubkey := funding_pubkey ours;
          ac_revocation_basepoint := revocation_basepoint ours;
          ac_payment_basepoint := payment_basepoint ours;
          ac_delayed_payment_basepoint := delayed_payment_basepoint ours;
          ac_first_per_commitment_point := next_per_commit state REMOTE |}) ;;
  when (negb ok)
    (peer_failed WIRE_OPENING_PEER_WRITE_FAILED "Writing accept_channel") ;;
  msg <- sync_crypto_read ;;
  msg <- or_peer_failed msg
    WIRE_OPENING_PEER_READ_FAILED "Reading funding_created" ;;
  fc <- or_peer_failed (fromwire_funding_created msg)
    WIRE_OPENING_PEER_READ_FAILED "Parsing funding_created" ;;
  let tmpid2 := fc_temporary_channel_id fc in
  let theirsig := fc_signature fc in
  modify (fun state =>
    set_funding_outpoint state (fc_funding_txid fc)
      (fc_funding_output_index fc)) ;;
  when (negb (structeq tmpid tmpid2))
    (peer_failed WIRE_OPENING_PEER_READ_FAILED
       "funding_created ids don't match: sent %s got %s") ;;
  state <- get ;;
  chan <- or_peer_failed
    (new_channel (funding_txid state) (funding_txout state)
       (funding_satoshis state) (push_msat state) (feerate_per_kw state)
       (localconf state) (remoteconf state)
       (revocation_basepoint ours) (revocation_basepoint theirs)
       (payment_basepoint ours) (payment_basepoint theirs)
       (delayed_payment_basepoint ours) (delayed_payment_basepoint theirs)
       REMOTE)
    WIRE_OPENING_BAD_PARAM "could not create channel with given config" ;;
  modify (fun state => set_channel state (Some chan)) ;;
  state <- get ;;
  let tx := channel_tx chan (next_per_commit state LOCAL) LOCAL in
  when (negb (check_commit_sig (funding_pubkey ours) (funding_pubkey theirs)
                tx theirsig))
    (peer_failed WIRE_OPENING_PEER_READ_FAILED
       "Bad signature %s on tx %s using key %s") ;;
  let tx := channel_tx chan (next_per_commit state REMOTE) REMOTE in
  let sig :=
    sign_remote_commit state (funding_pubkey ours) (funding_pubkey theirs) tx in
  ok <- sync_crypto_write
    (Funding_signed {| fs_channel_id := tmpid; fs_signature := sig |}) ;;
  when (negb ok)
    (peer_failed WIRE_OPENING_PEER_WRITE_FAILED "Writing funding_signed") ;;
  state <- get ;;
  status_send
    (Opening_accept_resp (funding_txid state) (funding_txout state)
       (remoteconf state) theirsig (cs state)
       (funding_pubkey theirs) (revocation_basepoint theirs)
       (payment_basepoint theirs) (delayed_payment_basepoint theirs)
       (next_per_commit state REMOTE)).

(** *** main

    [argv] is the argument vector, program name included.  The state the
    monad starts from stands for the freshly allocated [struct state]. *)

Definition main (argv : list string) : M Z :=
  if ((Z.of_nat (List.length argv) =? 2)
      && String.eqb (nth 1 argv "") "--version")%bool
  then
    (fun s w => ([EvStdout version], Ret tt s w)) ;;
    exit ExitOk
  else
    msg <- wire_sync_read ;;
    when (match msg with None => true | Some _ => false end)
      (status_failed WIRE_OPENING_BAD_COMMAND "%s") ;;
    init <- or_status_failed (fromwire_opening_init msg)
      WIRE_OPENING_BAD_COMMAND "%s" ;;
    modify (fun state =>
      set_cs
        (set_limits (set_localconf state (init_localconf init))
           (init_max_to_self_delay init)
           (init_min_effective_htlc_capacity_msat init))
        (init_cs init)) ;;
    let seed := init_seed init in
    (* We derive everything from the one secret seed. *)
    our_points <- derive_our_basepoints seed ;;
    msg <- wire_sync_read ;;
    match fromwire_opening_open msg with
    | Some (sat, push, feerate, max_minimum_depth) =>
        modify (fun state => set_funding state sat push feerate) ;;
        open_channel our_points max_minimum_depth
    | None =>
        match fromwire_opening_accept msg with
        | Some (min_feerate, max_feerate, peer_msg) =>
            recv_channel our_points min_feerate max_feerate peer_msg
        | None => ret tt
        end
    end ;;
    (* Hand back the fd. *)
    fdpass_send ;;
    (* Wait for exit command (avoid state close being read before reqfd) *)
    msg <- wire_sync_read ;;
    when (match msg with None => true | Some _ => false end)
      (status_failed WIRE_OPENING_BAD_COMMAND "%s") ;;
    when (negb (fromwire_opening_exit_req msg))
      (status_failed WIRE_OPENING_BAD_COMMAND "Expected exit req not %i") ;;
    ret 0.

(** *** The channel handle of each path

    The call of [new_channel] in [open_channel], in terms of the state the
    path started from, the accept_channel it read and the outpoint the
    supervisor gave; and the call in [recv_channel], in terms of the
    open_channel it was handed and the funding_created it read. *)

Definition funder_channel (ours : points) (st : state)
    (a : accept_channel_msg) (txid : sha256_double) (txout : Z)
  : option struct_channel :=
  new_channel txid txout
    (funding_satoshis st) (push_msat st) (feerate_per_kw st)
    (set_channel_reserve_satoshis (localconf st)
       (set_reserve (funding_satoshis st)))
    (accept_remoteconf a)
    (revocation_basepoint ours) (ac_revocation_basepoint a)
    (payment_basepoint ours) (ac_payment_basepoint a)
    (delayed_payment_basepoint ours) (ac_delayed_payment_basepoint a)
    LOCAL.

Definition fundee_channel (ours : points) (st : state)
    (o : open_channel_msg) (fc : funding_created_msg)
  : option struct_channel :=
  new_channel (fc_funding_txid fc) (fc_funding_output_index fc)
    (oc_funding_satoshis o) (oc_push_msat o) (oc_feerate_per_kw o)
    (set_channel_reserve_satoshis (localconf st)
       (set_reserve (oc_funding_satoshis o)))
    (open_remoteconf o tal_channel_config)
    (revocation_basepoint ours) (oc_revocation_basepoint o)
    (payment_basepoint ours) (oc_payment_basepoint o)
    (delayed_payment_basepoint ours) (oc_delayed_payment_basepoint o)
    REMOTE.

(** *** Reading a run *)

(* The status a run failed with, if it failed. *)
Definition failure {A : Type} (r : result A) : option (opening_status * string) :=
  match r with
  | Exit (ExitFailed code fmt) => Some (code, fmt)
  | _ => None
  end.

Definition failure_code {A : Type} (r : result A) : option opening_status :=
  match r with
  | Exit (ExitFailed code _) => Some code
  | _ => None
  end.

(* The terminal success messages: open_funding_resp and accept_resp. *)
Definition is_success (e : event) : bool :=
  match e with
  | EvStatus (Opening_open_funding_resp _ _ _ _ _ _ _) => true
  | EvStatus (Opening_accept_resp _ _ _ _ _ _ _ _ _ _) => true
  | _ => false
  end.

(* Anything done on [PEER_FD]. *)
Definition is_peer_io (e : event) : bool :=
  match e with
  | EvPeerWrite _ _ => true
  | EvPeerRead _ => true
  | _ => false
  end.

(* What a trace holds after its first success message. *)
Fixpoint after_success (tr : list event) : option (list event) :=
  match tr with
  | [] => None
  | e :: tr' => if is_success e then Some tr' else after_success tr'
  end.

End Program.

(** ** The spec's reading of the reserve rule

    [r] is one percent of [funding], rounded up. *)
Definition one_percent_rounded_up (funding r : Z) : Prop :=
  100 * (r - 1) < funding <= 100 * r.

(** ** A small instance to run the daemon on concrete scripts

    Every opaque value is an integer.  Public keys are three times the
    secret, a signature of [tx] under [script] by the holder of [priv] is
    [tx + script + 3 * priv], and it verifies against the key [3 * priv].
    A freshly allocated config holds zeros. *)
Definition test_externals : Externals :=
  {| pubkey := Z; privkey := Z; sha256 := Z; sha256_double := Z;
     secp256k1_ecdsa_signature := Z; bitcoin_tx := Z; script := Z;
     crypto_state := Z; struct_channel := Z;
     hkdf_sha256_keys := fun seed =>
       (seed + 1, seed + 2, seed + 3, seed + 4, seed + 5);
     pubkey_from_privkey := fun k => if k =? 0 then None else Some (3 * k);
     shachain_from_seed := fun s i => s + i;
     secp256k1_ec_pubkey_create := fun s =>
       if s =? 0 then None else Some (3 * s);
     bitcoin_redeem_2of2 := fun a b => 1000 * Z.min a b + Z.max a b;
     check_tx_sig := fun tx _ wscript key sig => sig =? tx + wscript + key;
     sign_tx_input := fun tx _ wscript priv _ => tx + wscript + 3 * priv;
     cs_after_write := fun c => c + 1;
     cs_after_read := fun c => c + 1000;
     new_channel := fun txid txout sat _ _ _ _ _ _ _ _ _ _ _ =>
       if sat =? 0 then None else Some (txid + txout + sat);
     channel_tx := fun chan per_commit _ => chan + per_commit;
     tal_channel_config :=
       {| dust_limit_satoshis := 0;
          max_htlc_value_in_flight_msat := 0;
          channel_reserve_satoshis := 0;
          minimum_depth := 0;
          htlc_minimum_msat := 0;
          to_self_delay := 0;
          max_accepted_htlcs := 0 |};
     version := "test" |}.

Definition test_config : channel_config :=
  {| dust_limit_satoshis := 546;
     max_htlc_value_in_flight_msat := 1000000000;
     channel_reserve_satoshis := 0;
     minimum_depth := 3;
     htlc_minimum_msat := 0;
     to_self_delay := 144;
     max_accepted_htlcs := 483 |}.

(* The state after init and key derivation, before the role is known. *)
Definition test_state (sat push : Z) : @state test_externals :=
  @Build_state test_externals
    0                                         (* cs *)
    (fun sd => match sd with LOCAL => 55 | REMOTE => 0 end)
    sat push 15000                            (* funding, push, feerate *)
    0 0                                       (* funding outpoint *)
    (@Build_secrets test_externals 11 12 13 14)
    15                                        (* shaseed *)
    test_config test_config
    1008 1000000                              (* limits *)
    None.

Definition test_points : @points test_externals :=
  @Build_points test_externals 33 36 39 42.

(* The peer's accept_channel, echoing [id]: its funding key is 63 and its
   first per-commitment point 77. *)
Definition test_accept (id : channel_id) : @accept_channel_msg test_externals :=
  @Build_accept_channel_msg test_externals
    id 546 1000000000 10000 3 0 144 483 63 66 69 72 77.

(* The peer's open_channel, with the same keys. *)
Definition test_open (id : channel_id) (sat push : Z)
  : @open_channel_msg test_externals :=
  @Build_open_channel_msg test_externals
    id sat push 546 1000000000 5000 0 15000 144 483 63 66 69 72 77.

Definition test_funding_signed (id : channel_id) (sig : Z)
  : @peer_msg test_externals :=
  Funding_signed (@Build_funding_signed_msg test_externals id sig).

Definition test_funding_created (id : channel_id) (txid txout sig : Z)
  : @peer_msg test_externals :=
  Funding_created (@Build_funding_created_msg test_externals id txid txout sig).

Definition test_world (peer : list (option (@peer_msg test_externals)))
    (req : list (option (@control_msg test_externals)))
  : @world test_externals :=
  @Build_world test_externals peer [] req.

(* A funder about to validate: funding 1_000_000, reserve already set. *)
Definition test_funder_state : @state test_externals :=
  set_localconf (test_state 1000000 0)
    (set_channel_reserve_satoshis test_config (set_reserve 1000000)).

(* Remote configs: one the validator accepts, one whose htlc_minimum_msat
   is too high for the capacity, one that accepts no HTLC. *)
Definition test_remoteconf : channel_config :=
  set_channel_reserve_satoshis test_config 10000.

Definition test_remoteconf_high_minimum : channel_config :=
  {| dust_limit_satoshis := 546;
     max_htlc_value_in_flight_msat := 1000000000;
     channel_reserve_satoshis := 10000;
     minimum_depth := 3;
     htlc_minimum_msat := 2000000;
     to_self_delay := 144;
     max_accepted_htlcs := 483 |}.

Definition test_remoteconf_512_htlcs : channel_config :=
  {| dust_limit_satoshis := 546;
     max_htlc_value_in_flight_msat := 1000000000;
     channel_reserve_satoshis := 10000;
     minimum_depth := 3;
     htlc_minimum_msat := 0;
     to_self_delay := 144;
     max_accepted_htlcs := 512 |}.

Definition test_no_peer : @world test_externals := test_world [] [].

(* A temporary channel id of the peer's choosing. *)
Definition test_id : channel_id := repeat x01 32.

(* The funder's dialogue: accept_channel, then funding_signed with [sig];
   the supervisor supplies the outpoint (7, 1).  The signature that
   verifies is 1033189. *)
Definition test_funder_world (id : channel_id) (sig : Z)
  : @world test_externals :=
  test_world
    [Some (Accept_channel (test_accept all_ff_channel_id));
     Some (test_funding_signed id sig)]
    [Some (@Opening_open_funding test_externals 7 1)].

(* The fundee's dialogue: funding_created for the outpoint (7, 1) with
   [sig].  The signature that verifies is 533189. *)
Definition test_fundee_world (id : channel_id) (sig : Z)
  : @world test_externals :=
  test_world [Some (test_funding_created id 7 1 sig)] [].

(* A whole fundee session as the supervisor drives it. *)
Definition test_session : @world test_externals :=
  test_world
    [Some (test_funding_created test_id 7 1 844424930656135)]
    [Some (Opening_init
             (@Build_opening_init_msg test_externals
                test_config 1008 1000000 0 7));
     Some (@Opening_accept test_externals 1000 20000
             (Open_channel (test_open test_id 500000 100000000)));
     Some (@Opening_exit_req test_externals)].

(* The funder path and the fundee path on these values. *)
Definition funder_run (st : @state test_externals) (w : @world test_externals)
  : list (@event test_externals) * @result test_externals unit :=
  open_channel test_points 10 st w.

Definition fundee_run (id : channel_id) (sat push : Z)
    (w : @world test_externals)
  : list (@event test_externals) * @result test_externals unit :=
  recv_channel test_points 1000 20000
    (Open_channel (test_open id sat push)) (test_state 0 0) w.

(** ** More ways to read a run *)

Section Observers.

Context {E : Externals}.

(* What a [peer_failed(code, fmt)] adds to a run in world [w] and how
   the run ends: the error frame, then the status, then the exit. *)
Definition channel_failed {A : Type} (code : opening_status) (fmt : string)
    (w : world) : list event * result A :=
  ([EvPeerWrite (Error_msg None fmt) (hd true (peer_wr w));
    EvStatus (Status_failed code fmt)],
   Exit (ExitFailed code fmt)).

(* [capacity_msat] of [check_config_bounds] from the two fields of the
   state it reads: the funding and our reserve. *)
Definition capacity_msat_for (funding local_reserve : Z)
    (remoteconf : channel_config) : Z :=
  let reserve_msat := mul64 (channel_reserve_satoshis remoteconf) 1000 in
  let reserve_msat :=
    if mul64 local_reserve 1000 >? reserve_msat
    then mul64 local_reserve 1000
    else reserve_msat in
  let capacity_msat := sub64 (mul64 funding 1000) reserve_msat in
  if max_htlc_value_in_flight_msat remoteconf <? capacity_msat
  then max_htlc_value_in_flight_msat remoteconf
  else capacity_msat.

(* The six tests of [check_config_bounds], all passed. *)
Definition config_acceptable
    (max_delay funding local_reserve min_capacity : Z)
    (remoteconf : channel_config) : Prop :=
  to_self_delay remoteconf <= max_delay /\
  channel_reserve_satoshis remoteconf <= funding /\
  mul64 (htlc_minimum_msat remoteconf) 1000 <=
    capacity_msat_for funding local_reserve remoteconf /\
  min_capacity <= capacity_msat_for funding local_reserve remoteconf /\
  max_accepted_htlcs remoteconf <> 0 /\
  max_accepted_htlcs remoteconf <= 511.

Definition is_error_frame (m : peer_msg) : bool :=
  match m with Error_msg _ _ => true | _ => false end.

Definition is_failed_status (e : event) : bool :=
  match e with EvStatus (Status_failed _ _) => true | _ => false end.

Definition is_fdpass (e : event) : bool :=
  match e with EvFdPass => true | _ => false end.

(* The events before and after the first descriptor hand-back. *)
Fixpoint around_fdpass (tr : list event) : option (list event * list event) :=
  match tr with
  | [] => None
  | e :: tr' =>
      if is_fdpass e then Some ([], tr')
      else match around_fdpass tr' with
           | Some (before, after) => Some (e :: before, after)
           | None => None
           end
  end.

(** *** The messages each path sends *)

(* The open_channel of the funder: the 0xFF id, the funding, our config
   with the reserve just set, our keys and our first per-commitment point. *)
Definition funder_open_channel (ours : points) (st : state)
  : open_channel_msg :=
  {| oc_temporary_channel_id := all_ff_channel_id;
     oc_funding_satoshis := funding_satoshis st;
     oc_push_msat := push_msat st;
     oc_dust_limit_satoshis := dust_limit_satoshis (localconf st);
     oc_max_htlc_value_in_flight_msat :=
       max_htlc_value_in_flight_msat (localconf st);
     oc_channel_reserve_satoshis := set_reserve (funding_satoshis st);
     oc_htlc_minimum_msat := htlc_minimum_msat (localconf st);
     oc_feerate_per_kw := feerate_per_kw st;
     oc_to_self_delay := to_self_delay (localconf st);
     oc_max_accepted_htlcs := max_accepted_htlcs (localconf st);
     oc_funding_pubkey := funding_pubkey ours;
     oc_revocation_basepoint := revocation_basepoint ours;
     oc_payment_basepoint := payment_basepoint ours;
     oc_delayed_payment_basepoint := delayed_payment_basepoint ours;
     oc_first_per_commitment_point := next_per_commit st LOCAL |}.

(* Our signature on the peer's first commitment transaction: the REMOTE
   transaction of [chan] for the peer's per-commitment point, input 0,
   under the 2-of-2 script, with our funding key. *)
Definition signature_for_peer (ours : points) (st : state)
    (their_funding_key their_per_commit : pubkey) (chan : struct_channel)
  : secp256k1_ecdsa_signature :=
  sign_tx_input (channel_tx chan their_per_commit REMOTE) 0
    (bitcoin_redeem_2of2 (funding_pubkey ours) their_funding_key)
    (funding_privkey (our_secrets st)) (funding_pubkey ours).

(* The funding_created of the funder. *)
Definition funder_funding_created (ours : points) (st : state)
    (a : accept_channel_msg) (txid : sha256_double) (txout : Z)
    (chan : struct_channel) : funding_created_msg :=
  {| fc_temporary_channel_id := all_ff_channel_id;
     fc_funding_txid := txid;
     fc_funding_output_index := txout;
     fc_signature :=
       signature_for_peer ours st (ac_funding_pubkey a)
         (ac_first_per_commitment_point a) chan |}.

(* The funding_signed of the fundee. *)
Definition fundee_funding_signed (ours : points) (st : state)
    (o : open_channel_msg) (chan : struct_channel) : funding_signed_msg :=
  {| fs_channel_id := oc_temporary_channel_id o;
     fs_signature :=
       signature_for_peer ours st (oc_funding_pubkey o)
         (oc_first_per_commitment_point o) chan |}.

(* [rc] holds the six parameters an open_channel carries for a config;
   open_channel has no minimum_depth, so nothing is said of that field. *)
Definition holds_open_channel_config (o : open_channel_msg)
    (rc : channel_config) : Prop :=
  dust_limit_satoshis rc = oc_dust_limit_satoshis o /\
  max_htlc_value_in_flight_msat rc = oc_max_htlc_value_in_flight_msat o /\
  channel_reserve_satoshis rc = oc_channel_reserve_satoshis o /\
  htlc_minimum_msat rc = oc_htlc_minimum_msat o /\
  to_self_delay rc = oc_to_self_delay o /\
  max_accepted_htlcs rc = oc_max_accepted_htlcs o.

(* The state and the world a run returned with; the given ones if it
   left through [exit]. *)
Definition final_state {A : Type} (r : result A) (otherwise : state) : state :=
  match r with Ret _ s _ => s | Exit _ => otherwise end.

Definition final_world {A : Type} (r : result A) (otherwise : world) : world :=
  match r with Ret _ _ w => w | Exit _ => otherwise end.

End Observers.

(** ** More scripts for the small instance *)

(* A remote config that asks for a to_self_delay of 1009 blocks. *)
Definition test_remoteconf_long_delay : channel_config :=
  {| dust_limit_satoshis := 546;
     max_htlc_value_in_flight_msat := 1000000000;
     channel_reserve_satoshis := 10000;
     minimum_depth := 3;
     htlc_minimum_msat := 0;
     to_self_delay := 1009;
     max_accepted_htlcs := 483 |}.

(* A peer whose descriptor refuses the first write. *)
Definition test_deaf_peer : @world test_externals :=
  @Build_world test_externals [] [false] [].

(* The accept_channel the fundee sends for a funding of 500_000. *)
Definition test_accept_sent : @accept_channel_msg test_externals :=
  @Build_accept_channel_msg test_externals
    test_id 546 1000000000 5000 3 0 144 483 33 36 39 42 77.

(* The funding_created the funder sends for the outpoint (7, 1). *)
Definition test_funding_created_sent : @funding_created_msg test_externals :=
  @Build_funding_created_msg test_externals all_ff_channel_id 7 1 1033181.

Definition test_init : @control_msg test_externals :=
  Opening_init
    (@Build_opening_init_msg test_externals test_config 1008 1000000 0 7).

(* Sessions of the supervisor: an unknown role, no init at all, and a
   funder whose peer has gone. *)
Definition test_session_unknown_role : @world test_externals :=
  test_world []
    [Some test_init;
     Some (@Other_control_msg test_externals 99);
     Some (@Opening_exit_req test_externals)].

Definition test_session_no_init : @world test_externals :=
  test_world [] [Some (@Opening_exit_req test_externals)].

Definition test_session_funder : @world test_externals :=
  test_world []
    [Some test_init;
     Some (@Opening_open test_externals 1000000 0 15000 10)].

(* The open_channel of that funder: keys from the seed 7. *)
Definition test_open_sent : @open_channel_msg test_externals :=
  @Build_open_channel_msg test_externals
    all_ff_channel_id 1000000 0 546 1000000000 10000 0 15000 144 483
    24 27 30 33 844424930132001.

(** * Properties *)

(** ** Proof tools *)

(* Let [lia] see through division and remainder by constants. *)
Ltac Zify.zify_post_hook ::= Z.to_euclidean_division_equations.

Ltac unfold_daemon :=
  unfold main, open_channel, recv_channel, check_config_bounds,
    derive_our_basepoints, or_peer_failed, or_status_failed, peer_failed,
    status_failed, when, sync_crypto_write, sync_crypto_read,
    wire_sync_write, wire_sync_read, status_send, fdpass_send, exit,
    modify, get, put, bind, ret.

(* Split on the innermost test the run is stuck on. *)
Ltac split_run :=
  match goal with
  | |- context [match ?x with _ => _ end] =>
      lazymatch x with
      | context [match _ with _ => _ end] => fail
      | _ => destruct x eqn:?
      end
  end.

Ltac run_daemon := unfold_daemon; cbn; repeat (split_run; cbn).

Ltac unfold_u64 :=
  unfold set_reserve, div64, add64, sub64, mul64, wrap64,
    is_u64, is_u32, is_u16, u64_modulus, u32_modulus, u16_modulus in *;
  change (2 ^ 64) with 18446744073709551616 in *;
  change (2 ^ 32) with 4294967296 in *;
  change (2 ^ 16) with 65536 in *;
  change (2 ^ 24) with 16777216 in *.

Section Arithmetic.

Lemma wrap64_small (x : Z) : is_u64 x -> wrap64 x = x.
Proof. unfold_u64. intros H. apply Z.mod_small. exact H. Qed.

Lemma set_reserve_exact (funding : Z) :
  0 <= funding < 2 ^ 24 -> set_reserve funding = (funding + 99) / 100.
Proof.
  intros H. unfold set_reserve, div64, add64.
  rewrite wrap64_small; [reflexivity|]. unfold_u64. lia.
Qed.

Lemma set_reserve_rounds_up (funding : Z) :
  0 <= funding < 2 ^ 24 ->
  one_percent_rounded_up funding (set_reserve funding).
Proof.
  intros H. rewrite set_reserve_exact by exact H.
  unfold one_percent_rounded_up. change (2 ^ 24) with 16777216 in H. lia.
Qed.

Lemma rounded_up_unique (funding r r' : Z) :
  one_percent_rounded_up funding r -> one_percent_rounded_up funding r' ->
  r = r'.
Proof. unfold one_percent_rounded_up. lia. Qed.

End Arithmetic.

Section Validator.

Context {E : Externals}.

(* What a run of [peer_failed] looks like. *)
Lemma peer_failed_run (A : Type) (code : opening_status) (fmt : string)
    (st : state) (w : world) :
  @peer_failed E A code fmt st w =
  ([EvPeerWrite (Error_msg None fmt) (hd true (peer_wr w));
    EvStatus (Status_failed code fmt)],
   Exit (ExitFailed code fmt)).
Proof. reflexivity. Qed.

(* Under the facts both callers establish before they validate, the
   wrapping computation of the capacity is the exact one. *)
Lemma capacity_msat_of_exact (st : state) (rc : channel_config) :
  0 <= funding_satoshis st < 2 ^ 24 ->
  0 <= channel_reserve_satoshis rc <= funding_satoshis st ->
  one_percent_rounded_up (funding_satoshis st)
    (channel_reserve_satoshis (localconf st)) ->
  reserve_msat_of st rc =
    Z.max (channel_reserve_satoshis rc)
          (channel_reserve_satoshis (localconf st)) * 1000 /\
  capacity_msat_of st rc =
    Z.min (funding_satoshis st * 1000
           - Z.max (channel_reserve_satoshis rc)
                   (channel_reserve_satoshis (localconf st)) * 1000)
          (max_htlc_value_in_flight_msat rc).
Proof.
  intros Hf Hr Hl. unfold one_percent_rounded_up in Hl.
  change (2 ^ 24) with 16777216 in Hf.
  assert (Hres : reserve_msat_of st rc =
    Z.max (channel_reserve_satoshis rc)
          (channel_reserve_satoshis (localconf st)) * 1000).
  { unfold reserve_msat_of, mul64.
    rewrite !wrap64_small by (unfold_u64; lia).
    destruct (_ >? _) eqn:Hc; lia. }
  split; [exact Hres|].
  unfold capacity_msat_of. rewrite Hres. unfold sub64, mul64.
  rewrite (wrap64_small (funding_satoshis st * 1000)) by (unfold_u64; lia).
  rewrite wrap64_small by (unfold_u64; lia).
  destruct (_ <? _) eqn:Hc; lia.
Qed.

(** C10.  When [funding_satoshis < 2^24], the remote reserve is at most
    the funding and the local reserve is one percent of the funding
    rounded up, no step of the capacity computation of
    [check_config_bounds] wraps: the two products reserve * 1000, the
    product funding * 1000 and the subtraction of the higher reserve all
    stay in [0, 2^64), so [capacity_msat] is the exact value
    min (funding * 1000 - max (remote reserve, local reserve) * 1000,
    max_htlc_value_in_flight_msat). *)
Theorem capacity_computation_does_not_wrap (st : state) (rc : channel_config) :
  0 <= funding_satoshis st < 2 ^ 24 ->
  0 <= channel_reserve_satoshis rc <= funding_satoshis st ->
  one_percent_rounded_up (funding_satoshis st)
    (channel_reserve_satoshis (localconf st)) ->
  let funding := funding_satoshis st in
  let remote := channel_reserve_satoshis rc in
  let local := channel_reserve_satoshis (localconf st) in
  (is_u64 (remote * 1000) /\ mul64 remote 1000 = remote * 1000) /\
  (is_u64 (local * 1000) /\ mul64 local 1000 = local * 1000) /\
  (is_u64 (funding * 1000) /\ mul64 funding 1000 = funding * 1000) /\
  reserve_msat_of st rc = Z.max remote local * 1000 /\
  (is_u64 (funding * 1000 - Z.max remote local * 1000) /\
   sub64 (mul64 funding 1000) (reserve_msat_of st rc) =
     funding * 1000 - Z.max remote local * 1000) /\
  capacity_msat_of st rc =
    Z.min (funding * 1000 - Z.max remote local * 1000)
          (max_htlc_value_in_flight_msat rc).
Proof.
  intros Hf Hr Hl funding remote local.
  destruct (capacity_msat_of_exact st rc Hf Hr Hl) as [Hres Hcap].
  fold funding remote local in Hres, Hcap.
  unfold one_percent_rounded_up in Hl. fold funding local in Hl.
  change (2 ^ 24) with 16777216 in Hf. fold funding in Hf, Hr.
  fold remote in Hr.
  assert (Hu : forall x, 0 <= x <= funding -> is_u64 (x * 1000)).
  { intros x Hx. unfold_u64. lia. }
  assert (Hrem : is_u64 (remote * 1000)) by (apply Hu; lia).
  assert (Hloc : is_u64 (local * 1000)) by (apply Hu; lia).
  assert (Hfun : is_u64 (funding * 1000)) by (apply Hu; lia).
  assert (Hsub : is_u64 (funding * 1000 - Z.max remote local * 1000)).
  { unfold_u64. lia. }
  repeat split; try (apply Hrem || apply Hloc || apply Hfun || apply Hsub);
    try (unfold mul64; apply wrap64_small; assumption);
    try assumption.
  rewrite Hres. unfold sub64, mul64.
  rewrite (wrap64_small (funding * 1000)) by assumption.
  apply wrap64_small; assumption.
Qed.

(** C3, as amended.  For a remote config that passes the to_self_delay
    test and the reserve test, in a state as both callers leave it
    (funding below 2^24, local reserve one percent of it rounded up), with
    capacity_msat = min (funding_satoshis * 1000 - max (remote reserve,
    local reserve) * 1000, max_htlc_value_in_flight_msat): the validator
    fails the channel at its htlc_minimum_msat test, with PEER_BAD_CONFIG
    and that test's message, exactly when htlc_minimum_msat * 1000 exceeds
    capacity_msat.  That is not the only way left to PEER_BAD_CONFIG: the
    validator fails with PEER_BAD_CONFIG exactly when htlc_minimum_msat *
    1000 exceeds capacity_msat, or capacity_msat is below the required
    floor, or max_accepted_htlcs is 0 or above 511; and it returns when
    none of these holds. *)
Theorem htlc_minimum_checked_against_capacity
    (st : state) (rc : channel_config) (w : world) :
  config_in_range rc ->
  0 <= funding_satoshis st < 2 ^ 24 ->
  one_percent_rounded_up (funding_satoshis st)
    (channel_reserve_satoshis (localconf st)) ->
  to_self_delay rc <= max_to_self_delay st ->
  channel_reserve_satoshis rc <= funding_satoshis st ->
  let capacity_msat :=
    Z.min (funding_satoshis st * 1000
           - Z.max (channel_reserve_satoshis rc)
                   (channel_reserve_satoshis (localconf st)) * 1000)
          (max_htlc_value_in_flight_msat rc) in
  (htlc_minimum_msat rc * 1000 > capacity_msat <->
   snd (check_config_bounds rc st w) =
     Exit (ExitFailed WIRE_OPENING_PEER_BAD_CONFIG
       "Invalid htlc_minimum_msat %u for funding_satoshis %PRIu64 capacity_msat %PRIu64")) /\
  (failure_code (snd (check_config_bounds rc st w)) =
     Some WIRE_OPENING_PEER_BAD_CONFIG <->
   htlc_minimum_msat rc * 1000 > capacity_msat \/
   capacity_msat < min_effective_htlc_capacity_msat st \/
   max_accepted_htlcs rc = 0 \/
   max_accepted_htlcs rc > 511) /\
  (htlc_minimum_msat rc * 1000 <= capacity_msat ->
   min_effective_htlc_capacity_msat st <= capacity_msat ->
   1 <= max_accepted_htlcs rc <= 511 ->
   check_config_bounds rc st w = ([], Ret tt st w)).
Proof.
  intros Hrange Hf Hl Hdelay Hres capacity_msat.
  destruct Hrange as (_ & _ & Hr0 & _ & Hmin & _ & Hacc).
  destruct (capacity_msat_of_exact st rc Hf) as [_ Hcap]; [unfold_u64; lia|exact Hl|].
  fold capacity_msat in Hcap.
  assert (Hmul : mul64 (htlc_minimum_msat rc) 1000 = htlc_minimum_msat rc * 1000).
  { unfold mul64. apply wrap64_small. unfold_u64. lia. }
  unfold is_u16 in Hacc.
  unfold_daemon; cbn. rewrite Hcap, Hmul.
  repeat (split_run; cbn); (split; [split|split; [split|]]);
    first [ intros H1 H2 H3; solve [reflexivity | lia]
          | intros H; solve [ reflexivity | discriminate H | lia ] ].
Qed.

(** C7.  For a remote config that passes the preceding tests of the
    validator (to_self_delay, reserve, htlc_minimum_msat, effective
    capacity), the validator accepts exactly when max_accepted_htlcs lies
    in [1, 511]; any other value, so 0 and 512 and anything above 511,
    is a PEER_BAD_CONFIG channel failure. *)
Theorem max_accepted_htlcs_between_1_and_511
    (st : state) (rc : channel_config) (w : world) :
  is_u16 (max_accepted_htlcs rc) ->
  to_self_delay rc <= max_to_self_delay st ->
  channel_reserve_satoshis rc <= funding_satoshis st ->
  mul64 (htlc_minimum_msat rc) 1000 <= capacity_msat_of st rc ->
  min_effective_htlc_capacity_msat st <= capacity_msat_of st rc ->
  (check_config_bounds rc st w = ([], Ret tt st w) <->
   1 <= max_accepted_htlcs rc <= 511) /\
  (max_accepted_htlcs rc = 0 \/ 511 < max_accepted_htlcs rc ->
   failure_code (snd (check_config_bounds rc st w)) =
     Some WIRE_OPENING_PEER_BAD_CONFIG).
Proof.
  intros Hu Hdelay Hres Hmin Hcap. unfold is_u16 in Hu.
  unfold_daemon; cbn.
  repeat (split_run; cbn); (split; [split|]); intros H;
    solve [ reflexivity | discriminate H | lia ].
Qed.

End Validator.

Section Decoders.

Context {E : Externals}.

Lemma structeq_true (a b : channel_id) : structeq a b = true <-> a = b.
Proof.
  unfold structeq.
  destruct (list_eq_dec Byte.byte_eq_dec a b); split; congruence.
Qed.

Lemma structeq_false (a b : channel_id) : structeq a b = false <-> a <> b.
Proof.
  unfold structeq.
  destruct (list_eq_dec Byte.byte_eq_dec a b); split; congruence.
Qed.

Lemma fromwire_accept_channel_inv (p : peer_msg) (a : accept_channel_msg) :
  fromwire_accept_channel p = Some a -> p = Accept_channel a.
Proof. destruct p; cbn; congruence. Qed.

Lemma fromwire_open_channel_inv (p : peer_msg) (o : open_channel_msg) :
  fromwire_open_channel p = Some o -> p = Open_channel o.
Proof. destruct p; cbn; congruence. Qed.

Lemma fromwire_funding_created_inv (p : peer_msg) (m : funding_created_msg) :
  fromwire_funding_created p = Some m -> p = Funding_created m.
Proof. destruct p; cbn; congruence. Qed.

Lemma fromwire_funding_signed_inv (p : peer_msg) (m : funding_signed_msg) :
  fromwire_funding_signed p = Some m -> p = Funding_signed m.
Proof. destruct p; cbn; congruence. Qed.

Lemma fromwire_opening_open_funding_inv (m : option control_msg)
    (txid : sha256_double) (txout : Z) :
  fromwire_opening_open_funding m = Some (txid, txout) ->
  m = Some (Opening_open_funding txid txout).
Proof. destruct m as [[]|]; cbn; congruence. Qed.

End Decoders.

(* Turn what the splits recorded into facts about the messages. *)
Ltac decode :=
  repeat match goal with
  | H : fromwire_accept_channel ?p = Some _ |- _ =>
      apply fromwire_accept_channel_inv in H; subst p
  | H : fromwire_open_channel ?p = Some _ |- _ =>
      apply fromwire_open_channel_inv in H; subst p
  | H : fromwire_funding_created ?p = Some _ |- _ =>
      apply fromwire_funding_created_inv in H; subst p
  | H : fromwire_funding_signed ?p = Some _ |- _ =>
      apply fromwire_funding_signed_inv in H; subst p
  | H : fromwire_opening_open_funding _ = Some ?p |- _ =>
      destruct p; apply fromwire_opening_open_funding_inv in H;
      rewrite H in *; clear H
  | H : negb _ = true |- _ => apply negb_true_iff in H
  | H : negb _ = false |- _ => apply negb_false_iff in H
  | H : structeq _ _ = true |- _ => apply structeq_true in H
  | H : structeq _ _ = false |- _ => apply structeq_false in H
  end.

(* Go through the events of a trace that may be the one in [H]. *)
Ltac in_trace H :=
  cbn [In] in H; repeat destruct H as [H|H]; try discriminate H;
  try contradiction.

(* State the capacity the splits recorded by the funding and reserve. *)
Ltac fold_capacity :=
  repeat match goal with
  | H : context [capacity_msat_of ?s ?rc] |- _ =>
      change (capacity_msat_of s rc)
        with (capacity_msat_for (funding_satoshis s)
                (channel_reserve_satoshis (localconf s)) rc) in H;
      cbn in H
  end.

(* Put the recorded outcome of each write into the trace. *)
Ltac write_outcomes :=
  repeat match goal with
  | H : hd true ?l = _ |- context [hd true ?l] => rewrite H
  end.

Section Paths.

Context {E : Externals}.

(** C6.  With [funding_satoshis >= 2^24] the funder path fails with
    BAD_PARAM and the fundee path, given the open_channel that carries
    it, fails with PEER_BAD_FUNDING; with [funding_satoshis < 2^24]
    neither run ends at one of these two tests. *)
Theorem funding_satoshis_limit
    (ours : points) (max_minimum_depth min_feerate max_feerate : Z)
    (o : open_channel_msg) (st : state) (w : world) :
  (funding_satoshis st >= 2 ^ 24 ->
   failure (snd (open_channel ours max_minimum_depth st w)) =
     Some (WIRE_OPENING_BAD_PARAM, "funding_satoshis must be < 2^24")) /\
  (oc_funding_satoshis o >= 2 ^ 24 ->
   failure (snd (recv_channel ours min_feerate max_feerate
                   (Open_channel o) st w)) =
     Some (WIRE_OPENING_PEER_BAD_FUNDING,
           "funding_satoshis %PRIu64 too large")) /\
  (funding_satoshis st < 2 ^ 24 ->
   failure (snd (open_channel ours max_minimum_depth st w)) <>
     Some (WIRE_OPENING_BAD_PARAM, "funding_satoshis must be < 2^24")) /\
  (oc_funding_satoshis o < 2 ^ 24 ->
   failure (snd (recv_channel ours min_feerate max_feerate
                   (Open_channel o) st w)) <>
     Some (WIRE_OPENING_PEER_BAD_FUNDING,
           "funding_satoshis %PRIu64 too large")).
Proof.
  change (2 ^ 24) with 16777216.
  repeat split; intros H.
  - unfold_daemon; cbn.
    destruct (funding_satoshis st >=? 16777216) eqn:Hc; [reflexivity|lia].
  - unfold_daemon; cbn.
    destruct (oc_funding_satoshis o >=? 16777216) eqn:Hc; [reflexivity|lia].
  - run_daemon; solve [ discriminate | lia ].
  - run_daemon; solve [ discriminate | lia ].
Qed.

(** C8.  Whenever the funder path reads an accept_channel or a
    funding_signed whose channel id is not the temporary id of the
    negotiation (32 bytes 0xFF), and whenever the fundee path reads a
    funding_created whose id is not the id of the open_channel it was
    handed, the run fails the channel with PEER_READ_FAILED.  When the
    id matches the run goes on: it ends at one of the three id tests only
    if the id it read differs. *)
Theorem temporary_channel_id_must_match
    (ours : points) (max_minimum_depth min_feerate max_feerate : Z)
    (st : state) (w : world) :
  (forall tr r, open_channel ours max_minimum_depth st w = (tr, r) ->
     (forall a, In (EvPeerRead (Some (Accept_channel a))) tr ->
        ac_temporary_channel_id a <> all_ff_channel_id ->
        failure_code r = Some WIRE_OPENING_PEER_READ_FAILED) /\
     (forall fs, In (EvPeerRead (Some (Funding_signed fs))) tr ->
        fs_channel_id fs <> all_ff_channel_id ->
        failure_code r = Some WIRE_OPENING_PEER_READ_FAILED) /\
     (failure r = Some (WIRE_OPENING_PEER_READ_FAILED,
                        "accept_channel ids don't match: sent %s got %s") ->
      exists a, In (EvPeerRead (Some (Accept_channel a))) tr /\
                ac_temporary_channel_id a <> all_ff_channel_id) /\
     (failure r = Some (WIRE_OPENING_PEER_READ_FAILED,
                        "funding_signed ids don't match: sent %s got %s") ->
      exists fs, In (EvPeerRead (Some (Funding_signed fs))) tr /\
                 fs_channel_id fs <> all_ff_channel_id)) /\
  (forall o tr r,
     recv_channel ours min_feerate max_feerate (Open_channel o) st w = (tr, r) ->
     (forall fc, In (EvPeerRead (Some (Funding_created fc))) tr ->
        fc_temporary_channel_id fc <> oc_temporary_channel_id o ->
        failure_code r = Some WIRE_OPENING_PEER_READ_FAILED) /\
     (failure r = Some (WIRE_OPENING_PEER_READ_FAILED,
                        "funding_created ids don't match: sent %s got %s") ->
      exists fc, In (EvPeerRead (Some (Funding_created fc))) tr /\
                 fc_temporary_channel_id fc <> oc_temporary_channel_id o)).
Proof.
  split.
  - run_daemon.
    all: intros tr r [= <- <-]; decode.
    all: split; [|split; [|split]];
      try (intros m' Hin Hid; in_trace Hin; try reflexivity;
           injection Hin as <-; congruence);
      try (intros Hf; cbn in Hf;
           first [ discriminate Hf
                 | eexists; split; [cbn; eauto 10 | congruence] ]).
  - intros o. run_daemon.
    all: intros tr r [= <- <-]; decode.
    all: split;
      try (intros m' Hin Hid; in_trace Hin; try reflexivity;
           injection Hin as <-; congruence);
      try (intros Hf; cbn in Hf;
           first [ discriminate Hf
                 | eexists; split; [cbn; eauto 10 | congruence] ]).
Qed.

(** C1.  In the funder path and in the fundee path a success result is
    emitted only if, once the channel handle is built, the signature the
    peer supplied validates for the LOCAL first commitment transaction
    against the 2-of-2 funding redeem script over our and their funding
    keys, under their funding key.  When the signature read from the peer
    does not validate for that transaction, the run fails the channel
    with PEER_READ_FAILED and emits no success result. *)
Theorem success_needs_valid_peer_signature
    (ours : points) (max_minimum_depth min_feerate max_feerate : Z)
    (st : state) (w : world) :
  (forall tr r, open_channel ours max_minimum_depth st w = (tr, r) ->
     (forall rc sig c k1 k2 k3 k4,
        In (EvStatus (Opening_open_funding_resp rc sig c k1 k2 k3 k4)) tr ->
        exists a txid txout chan,
          In (EvPeerRead (Some (Accept_channel a))) tr /\
          In (EvReqRead (Some (Opening_open_funding txid txout))) tr /\
          In (EvPeerRead (Some (Funding_signed
                {| fs_channel_id := all_ff_channel_id;
                   fs_signature := sig |}))) tr /\
          funder_channel ours st a txid txout = Some chan /\
          check_tx_sig (channel_tx chan (next_per_commit st LOCAL) LOCAL) 0
            (bitcoin_redeem_2of2 (funding_pubkey ours) (ac_funding_pubkey a))
            (ac_funding_pubkey a) sig = true) /\
     (forall a txid txout fs chan,
        In (EvPeerRead (Some (Accept_channel a))) tr ->
        In (EvReqRead (Some (Opening_open_funding txid txout))) tr ->
        In (EvPeerRead (Some (Funding_signed fs))) tr ->
        funder_channel ours st a txid txout = Some chan ->
        check_tx_sig (channel_tx chan (next_per_commit st LOCAL) LOCAL) 0
          (bitcoin_redeem_2of2 (funding_pubkey ours) (ac_funding_pubkey a))
          (ac_funding_pubkey a) (fs_signature fs) = false ->
        failure_code r = Some WIRE_OPENING_PEER_READ_FAILED /\
        existsb is_success tr = false)) /\
  (forall o tr r,
     recv_channel ours min_feerate max_feerate (Open_channel o) st w = (tr, r) ->
     (forall txid txout rc theirsig c k0 k1 k2 k3 k4,
        In (EvStatus (Opening_accept_resp txid txout rc theirsig c
                        k0 k1 k2 k3 k4)) tr ->
        exists fc chan,
          In (EvPeerRead (Some (Funding_created fc))) tr /\
          fc_signature fc = theirsig /\
          fundee_channel ours st o fc = Some chan /\
          check_tx_sig (channel_tx chan (next_per_commit st LOCAL) LOCAL) 0
            (bitcoin_redeem_2of2 (funding_pubkey ours) (oc_funding_pubkey o))
            (oc_funding_pubkey o) theirsig = true) /\
     (forall fc chan,
        In (EvPeerRead (Some (Funding_created fc))) tr ->
        fundee_channel ours st o fc = Some chan ->
        check_tx_sig (channel_tx chan (next_per_commit st LOCAL) LOCAL) 0
          (bitcoin_redeem_2of2 (funding_pubkey ours) (oc_funding_pubkey o))
          (oc_funding_pubkey o) (fc_signature fc) = false ->
        failure_code r = Some WIRE_OPENING_PEER_READ_FAILED /\
        existsb is_success tr = false)).
Proof.
  split.
  - run_daemon.
    all: intros tr r [= <- <-]; decode; cbn [fst snd] in *.
    all: split;
      [ intros xrc xsig xcs xk1 xk2 xk3 xk4 Hin; in_trace Hin
      | intros xa xtxid xtxout xfs xchan Ha Ho Hs Hc Hv;
        first [ split; reflexivity
              | in_trace Hs; in_trace Ha; in_trace Ho ] ].
    + injection Hin as <- <- <- <- <- <- <-.
      destruct f as [fid fsig]; cbn in *; subst fid.
      exists a, s0, z, s. unfold funder_channel.
      repeat split; try (cbn; auto 10; fail); assumption.
    + injection Hs as <-. injection Ha as <-. injection Ho as <- <-.
      unfold funder_channel in Hc. unfold check_commit_sig in *.
      congruence.
  - intros o. run_daemon.
    all: intros tr r [= <- <-]; decode; cbn [fst snd] in *.
    all: split;
      [ intros xtxid xtxout xrc xsig xcs xk0 xk1 xk2 xk3 xk4 Hin; in_trace Hin
      | intros xfc xchan Hc Hn Hv;
        first [ split; reflexivity
              | in_trace Hc; injection Hc as <-;
                unfold fundee_channel in Hn; unfold check_commit_sig in *;
                congruence ] ].
    injection Hin as <- <- <- <- <- <- <- <- <- <-.
    exists f, s. unfold fundee_channel.
    repeat split; try (cbn; auto 10; fail); assumption.
Qed.

(* The funder sets the reserve before anything else: once its two local
   tests pass, the first thing it does is to write an open_channel that
   advertises our config with that reserve. *)
Lemma open_channel_first_write
    (ours : points) (max_minimum_depth : Z) (st : state) (w : world) :
  1 <= funding_satoshis st <= 2 ^ 24 - 1 ->
  push_msat st <= 1000 * funding_satoshis st ->
  hd_error (fst (open_channel ours max_minimum_depth st w)) =
    Some (EvPeerWrite (Open_channel (funder_open_channel ours st))
            (hd true (peer_wr w))).
Proof.
  intros Hf Hp. change (2 ^ 24) with 16777216 in Hf.
  assert (Hmul : mul64 1000 (funding_satoshis st) = 1000 * funding_satoshis st).
  { unfold mul64. apply wrap64_small. unfold_u64. lia. }
  unfold funder_open_channel.
  run_daemon; solve [reflexivity | lia].
Qed.

(* The fundee sets the reserve once the open_channel passed its tests on
   funding, push_msat and feerate: for a remote config the validator
   accepts, the first thing it does is to write an accept_channel that
   advertises our config with that reserve. *)
Lemma recv_channel_first_write
    (ours : points) (min_feerate max_feerate : Z)
    (o : open_channel_msg) (st : state) (w : world) :
  1 <= oc_funding_satoshis o <= 2 ^ 24 - 1 ->
  oc_push_msat o <= oc_funding_satoshis o * 1000 ->
  min_feerate <= oc_feerate_per_kw o <= max_feerate ->
  config_acceptable (max_to_self_delay st) (oc_funding_satoshis o)
    (set_reserve (oc_funding_satoshis o))
    (min_effective_htlc_capacity_msat st)
    (open_remoteconf o tal_channel_config) ->
  exists m,
    hd_error (fst (recv_channel ours min_feerate max_feerate
                     (Open_channel o) st w)) =
      Some (EvPeerWrite (Accept_channel m) (hd true (peer_wr w))) /\
    accept_remoteconf m =
      set_channel_reserve_satoshis (localconf st)
        (set_reserve (oc_funding_satoshis o)).
Proof.
  intros Hf Hp Hfee Hconf. change (2 ^ 24) with 16777216 in Hf.
  assert (Hmul : mul64 (oc_funding_satoshis o) 1000 =
                 oc_funding_satoshis o * 1000).
  { unfold mul64. apply wrap64_small. unfold_u64. lia. }
  unfold config_acceptable in Hconf; cbn in Hconf.
  run_daemon; fold_capacity; try lia.
  all: eexists; split; reflexivity.
Qed.

(* With a peer and a supervisor that play their part the funder runs to
   its end, and the state it returns holds our config with the reserve
   set. *)
Lemma open_channel_completes
    (ours : points) (max_minimum_depth : Z) (st : state) (w : world)
    (a : accept_channel_msg) (fs : funding_signed_msg)
    (txid : sha256_double) (txout : Z) (chan : struct_channel)
    (pin : list (option peer_msg)) (rin : list (option control_msg)) :
  1 <= funding_satoshis st <= 2 ^ 24 - 1 ->
  push_msat st <= 1000 * funding_satoshis st ->
  hd true (peer_wr w) = true ->
  hd true (tl (peer_wr w)) = true ->
  peer_in w = Some (Accept_channel a) :: Some (Funding_signed fs) :: pin ->
  req_in w = Some (Opening_open_funding txid txout) :: rin ->
  ac_temporary_channel_id a = all_ff_channel_id ->
  ac_minimum_depth a <= max_minimum_depth ->
  config_acceptable (max_to_self_delay st) (funding_satoshis st)
    (set_reserve (funding_satoshis st))
    (min_effective_htlc_capacity_msat st) (accept_remoteconf a) ->
  funder_channel ours st a txid txout = Some chan ->
  fs_channel_id fs = all_ff_channel_id ->
  check_tx_sig (channel_tx chan (next_per_commit st LOCAL) LOCAL) 0
    (bitcoin_redeem_2of2 (funding_pubkey ours) (ac_funding_pubkey a))
    (ac_funding_pubkey a) (fs_signature fs) = true ->
  exists s' w',
    snd (open_channel ours max_minimum_depth st w) = Ret tt s' w' /\
    localconf s' =
      set_channel_reserve_satoshis (localconf st)
        (set_reserve (funding_satoshis st)).
Proof.
  intros Hf Hp Hw1 Hw2 Hin Hreq Hid Hdepth Hconf Hchan Hid2 Hsig.
  change (2 ^ 24) with 16777216 in Hf.
  assert (Hmul : mul64 1000 (funding_satoshis st) = 1000 * funding_satoshis st).
  { unfold mul64. apply wrap64_small. unfold_u64. lia. }
  destruct w as [pin0 pwr0 rin0]; cbn in Hw1, Hw2, Hin, Hreq; subst pin0 rin0.
  unfold config_acceptable in Hconf; cbn in Hconf.
  unfold funder_channel in Hchan.
  run_daemon; decode; fold_capacity; cbn [fst snd] in *;
    try solve [lia | congruence | cbn in *; congruence].
  all: try (unfold check_commit_sig in *; congruence).
  all: do 2 eexists; split; reflexivity.
Qed.

(* And so does the fundee. *)
Lemma recv_channel_completes
    (ours : points) (min_feerate max_feerate : Z)
    (o : open_channel_msg) (st : state) (w : world)
    (fc : funding_created_msg) (chan : struct_channel)
    (pin : list (option peer_msg)) :
  1 <= oc_funding_satoshis o <= 2 ^ 24 - 1 ->
  oc_push_msat o <= oc_funding_satoshis o * 1000 ->
  min_feerate <= oc_feerate_per_kw o <= max_feerate ->
  config_acceptable (max_to_self_delay st) (oc_funding_satoshis o)
    (set_reserve (oc_funding_satoshis o))
    (min_effective_htlc_capacity_msat st)
    (open_remoteconf o tal_channel_config) ->
  hd true (peer_wr w) = true ->
  hd true (tl (peer_wr w)) = true ->
  peer_in w = Some (Funding_created fc) :: pin ->
  fc_temporary_channel_id fc = oc_temporary_channel_id o ->
  fundee_channel ours st o fc = Some chan ->
  check_tx_sig (channel_tx chan (next_per_commit st LOCAL) LOCAL) 0
    (bitcoin_redeem_2of2 (funding_pubkey ours) (oc_funding_pubkey o))
    (oc_funding_pubkey o) (fc_signature fc) = true ->
  exists s' w',
    snd (recv_channel ours min_feerate max_feerate (Open_channel o) st w) =
      Ret tt s' w' /\
    localconf s' =
      set_channel_reserve_satoshis (localconf st)
        (set_reserve (oc_funding_satoshis o)).
Proof.
  intros Hf Hp Hfee Hconf Hw1 Hw2 Hin Hid Hchan Hsig.
  change (2 ^ 24) with 16777216 in Hf.
  assert (Hmul : mul64 (oc_funding_satoshis o) 1000 =
                 oc_funding_satoshis o * 1000).
  { unfold mul64. apply wrap64_small. unfold_u64. lia. }
  destruct w as [pin0 pwr0 rin0]; cbn in Hw1, Hw2, Hin; subst pin0.
  unfold config_acceptable in Hconf; cbn in Hconf.
  unfold fundee_channel in Hchan.
  run_daemon; decode; fold_capacity; cbn [fst snd] in *;
    try solve [lia | congruence | cbn in *; congruence].
  all: try (unfold check_commit_sig in *; congruence).
  all: do 2 eexists; split; reflexivity.
Qed.

(** C4.  For every [funding_satoshis] in [1, 2^24 - 1] the reserve rule
    yields one percent of the funding rounded up (99 -> 1, 100 -> 1,
    101 -> 2, 200 -> 2), and both paths set
    [localconf.channel_reserve_satoshis] to it.  The funder does so before
    anything else: once push_msat is within the funding, the first event
    of its run is the write of an open_channel that advertises this
    reserve.  The fundee does so once the open_channel it was handed has
    passed the tests on push_msat and feerate: for a remote config the
    validator accepts, the first event of its run is the write of an
    accept_channel that advertises this reserve.  With a peer and a
    supervisor that play their part each path runs to its end, and the
    local config of the state it returns is the one it started with, the
    reserve replaced by this value.  No open_channel or accept_channel a
    path writes carries another reserve, and no path returns with
    another. *)
Theorem channel_reserve_is_one_percent_rounded_up
    (ours : points) (max_minimum_depth min_feerate max_feerate : Z)
    (o : open_channel_msg) (st : state) (w : world) :
  (forall funding, 1 <= funding <= 2 ^ 24 - 1 ->
     one_percent_rounded_up funding (set_reserve funding)) /\
  (set_reserve 99 = 1 /\ set_reserve 100 = 1 /\
   set_reserve 101 = 2 /\ set_reserve 200 = 2) /\
  (1 <= funding_satoshis st <= 2 ^ 24 - 1 ->
   forall tr r, open_channel ours max_minimum_depth st w = (tr, r) ->
     (forall m ok, In (EvPeerWrite (Open_channel m) ok) tr ->
        one_percent_rounded_up (funding_satoshis st)
          (oc_channel_reserve_satoshis m)) /\
     (forall s' w', r = Ret tt s' w' ->
        one_percent_rounded_up (funding_satoshis st)
          (channel_reserve_satoshis (localconf s')))) /\
  (1 <= oc_funding_satoshis o <= 2 ^ 24 - 1 ->
   forall tr r,
     recv_channel ours min_feerate max_feerate (Open_channel o) st w = (tr, r) ->
     (forall m ok, In (EvPeerWrite (Accept_channel m) ok) tr ->
        one_percent_rounded_up (oc_funding_satoshis o)
          (ac_channel_reserve_satoshis m)) /\
     (forall s' w', r = Ret tt s' w' ->
        one_percent_rounded_up (oc_funding_satoshis o)
          (channel_reserve_satoshis (localconf s')))) /\
  (1 <= funding_satoshis st <= 2 ^ 24 - 1 ->
   push_msat st <= 1000 * funding_satoshis st ->
   exists m,
     hd_error (fst (open_channel ours max_minimum_depth st w)) =
       Some (EvPeerWrite (Open_channel m) (hd true (peer_wr w))) /\
     oc_channel_reserve_satoshis m = set_reserve (funding_satoshis st) /\
     one_percent_rounded_up (funding_satoshis st)
       (oc_channel_reserve_satoshis m)) /\
  (1 <= oc_funding_satoshis o <= 2 ^ 24 - 1 ->
   oc_push_msat o <= oc_funding_satoshis o * 1000 ->
   min_feerate <= oc_feerate_per_kw o <= max_feerate ->
   config_acceptable (max_to_self_delay st) (oc_funding_satoshis o)
     (set_reserve (oc_funding_satoshis o))
     (min_effective_htlc_capacity_msat st)
     (open_remoteconf o tal_channel_config) ->
   exists m,
     hd_error (fst (recv_channel ours min_feerate max_feerate
                      (Open_channel o) st w)) =
       Some (EvPeerWrite (Accept_channel m) (hd true (peer_wr w))) /\
     ac_channel_reserve_satoshis m = set_reserve (oc_funding_satoshis o) /\
     one_percent_rounded_up (oc_funding_satoshis o)
       (ac_channel_reserve_satoshis m)) /\
  (forall a fs txid txout chan pin rin,
     1 <= funding_satoshis st <= 2 ^ 24 - 1 ->
     push_msat st <= 1000 * funding_satoshis st ->
     hd true (peer_wr w) = true ->
     hd true (tl (peer_wr w)) = true ->
     peer_in w = Some (Accept_channel a) :: Some (Funding_signed fs) :: pin ->
     req_in w = Some (Opening_open_funding txid txout) :: rin ->
     ac_temporary_channel_id a = all_ff_channel_id ->
     ac_minimum_depth a <= max_minimum_depth ->
     config_acceptable (max_to_self_delay st) (funding_satoshis st)
       (set_reserve (funding_satoshis st))
       (min_effective_htlc_capacity_msat st) (accept_remoteconf a) ->
     funder_channel ours st a txid txout = Some chan ->
     fs_channel_id fs = all_ff_channel_id ->
     check_tx_sig (channel_tx chan (next_per_commit st LOCAL) LOCAL) 0
       (bitcoin_redeem_2of2 (funding_pubkey ours) (ac_funding_pubkey a))
       (ac_funding_pubkey a) (fs_signature fs) = true ->
     exists s' w',
       snd (open_channel ours max_minimum_depth st w) = Ret tt s' w' /\
       localconf s' =
         set_channel_reserve_satoshis (localconf st)
           (set_reserve (funding_satoshis st)) /\
       one_percent_rounded_up (funding_satoshis st)
         (channel_reserve_satoshis (localconf s'))) /\
  (forall fc chan pin,
     1 <= oc_funding_satoshis o <= 2 ^ 24 - 1 ->
     oc_push_msat o <= oc_funding_satoshis o * 1000 ->
     min_feerate <= oc_feerate_per_kw o <= max_feerate ->
     config_acceptable (max_to_self_delay st) (oc_funding_satoshis o)
       (set_reserve (oc_funding_satoshis o))
       (min_effective_htlc_capacity_msat st)
       (open_remoteconf o tal_channel_config) ->
     hd true (peer_wr w) = true ->
     hd true (tl (peer_wr w)) = true ->
     peer_in w = Some (Funding_created fc) :: pin ->
     fc_temporary_channel_id fc = oc_temporary_channel_id o ->
     fundee_channel ours st o fc = Some chan ->
     check_tx_sig (channel_tx chan (next_per_commit st LOCAL) LOCAL) 0
       (bitcoin_redeem_2of2 (funding_pubkey ours) (oc_funding_pubkey o))
       (oc_funding_pubkey o) (fc_signature fc) = true ->
     exists s' w',
       snd (recv_channel ours min_feerate max_feerate (Open_channel o) st w) =
         Ret tt s' w' /\
       localconf s' =
         set_channel_reserve_satoshis (localconf st)
           (set_reserve (oc_funding_satoshis o)) /\
       one_percent_rounded_up (oc_funding_satoshis o)
         (channel_reserve_satoshis (localconf s'))).
Proof.
  split; [|split; [|split; [|split; [|split; [|split; [|split]]]]]].
  - intros funding H. apply set_reserve_rounds_up. lia.
  - repeat split; reflexivity.
  - intros Hf.
    assert (Hr := set_reserve_rounds_up (funding_satoshis st) ltac:(lia)).
    run_daemon.
    all: intros tr r [= <- <-]; split;
      [ intros xm xok Hin; in_trace Hin; injection Hin as <- <-; exact Hr
      | intros xs xw Hret; try discriminate Hret;
        injection Hret as <- <-; exact Hr ].
  - intros Hf.
    assert (Hr := set_reserve_rounds_up (oc_funding_satoshis o) ltac:(lia)).
    run_daemon.
    all: intros tr r [= <- <-]; split;
      [ intros xm xok Hin; in_trace Hin; injection Hin as <- <-; exact Hr
      | intros xs xw Hret; try discriminate Hret;
        injection Hret as <- <-; exact Hr ].
  - intros Hf Hp.
    exists (funder_open_channel ours st).
    split; [apply open_channel_first_write; assumption|].
    split; [reflexivity|].
    apply set_reserve_rounds_up. lia.
  - intros Hf Hp Hfee Hconf.
    destruct (recv_channel_first_write ours min_feerate max_feerate o st w
                Hf Hp Hfee Hconf) as (m & Hhd & Hm).
    exists m. split; [exact Hhd|].
    assert (Hres : ac_channel_reserve_satoshis m =
                   set_reserve (oc_funding_satoshis o)).
    { change (ac_channel_reserve_satoshis m)
        with (channel_reserve_satoshis (accept_remoteconf m)).
      rewrite Hm. reflexivity. }
    split; [exact Hres|].
    rewrite Hres. apply set_reserve_rounds_up. lia.
  - intros a fs txid txout chan pin rin Hf Hp Hw1 Hw2 Hin Hreq Hid Hdepth
      Hconf Hchan Hid2 Hsig.
    destruct (open_channel_completes ours max_minimum_depth st w a fs txid
                txout chan pin rin Hf Hp Hw1 Hw2 Hin Hreq Hid Hdepth Hconf
                Hchan Hid2 Hsig) as (s' & w' & Hrun & Hloc).
    exists s', w'. split; [exact Hrun|]. split; [exact Hloc|].
    rewrite Hloc. apply set_reserve_rounds_up. lia.
  - intros fc chan pin Hf Hp Hfee Hconf Hw1 Hw2 Hin Hid Hchan Hsig.
    destruct (recv_channel_completes ours min_feerate max_feerate o st w fc
                chan pin Hf Hp Hfee Hconf Hw1 Hw2 Hin Hid Hchan Hsig)
      as (s' & w' & Hrun & Hloc).
    exists s', w'. split; [exact Hrun|]. split; [exact Hloc|].
    rewrite Hloc. apply set_reserve_rounds_up. lia.
Qed.

(** C5, as amended.  Started with [push_msat > 1000 * funding_satoshis]
    (so with funding 1000 and push 1_000_001), the funder path ends with
    BAD_PARAM before it sends open_channel and before it reads anything
    from the peer: all it does on the peer stream is the best-effort
    write of the error frame, followed by the status to the supervisor. *)
Theorem push_msat_over_limit_is_bad_param
    (ours : points) (max_minimum_depth : Z) (st : state) (w : world) :
  0 <= funding_satoshis st ->
  push_msat st > 1000 * funding_satoshis st ->
  exists fmt,
    open_channel ours max_minimum_depth st w =
    ([EvPeerWrite (Error_msg None fmt) (hd true (peer_wr w));
      EvStatus (Status_failed WIRE_OPENING_BAD_PARAM fmt)],
     Exit (ExitFailed WIRE_OPENING_BAD_PARAM fmt)).
Proof.
  intros Hf Hp. unfold_daemon; cbn.
  destruct (funding_satoshis st >=? 16777216) eqn:Hbig; cbn.
  - eexists; reflexivity.
  - assert (Hmul : mul64 1000 (funding_satoshis st) = 1000 * funding_satoshis st).
    { unfold mul64. apply wrap64_small. unfold_u64. lia. }
    rewrite Hmul.
    destruct (push_msat st >? 1000 * funding_satoshis st) eqn:Hpush; cbn.
    + eexists; reflexivity.
    + lia.
Qed.

(* What the fundee puts in the accept_channel it sends. *)
Lemma accept_channel_fields
    (ours : points) (min_feerate max_feerate : Z)
    (o : open_channel_msg) (st : state) (w : world) :
  forall tr r,
    recv_channel ours min_feerate max_feerate (Open_channel o) st w = (tr, r) ->
    forall m ok, In (EvPeerWrite (Accept_channel m) ok) tr ->
      ac_temporary_channel_id m = oc_temporary_channel_id o /\
      ac_first_per_commitment_point m = oc_first_per_commitment_point o.
Proof.
  run_daemon.
  all: intros tr r [= <- <-] xm xok Hin; in_trace Hin;
    injection Hin as <- <-; split; reflexivity.
Qed.

(** C9.  Once the terminal success message is emitted, [main] first
    hands the peer descriptor back, then reads the control channel, and
    does nothing else before it ends: it returns 0 exactly when the
    message read parses as exit_req, and when the read fails or any other
    message arrives it ends with BAD_COMMAND. *)
Theorem exit_req_awaited_after_success
    (argv : list string) (st : state) (w : world) :
  forall tr r, main argv st w = (tr, r) ->
  forall post, after_success tr = Some post ->
  exists msg,
    (fromwire_opening_exit_req msg = true /\
     post = [EvFdPass; EvReqRead msg] /\
     exists s' w', r = Ret 0 s' w') \/
    (fromwire_opening_exit_req msg = false /\
     exists fmt,
       post = [EvFdPass; EvReqRead msg;
               EvStatus (Status_failed WIRE_OPENING_BAD_COMMAND fmt)] /\
       r = Exit (ExitFailed WIRE_OPENING_BAD_COMMAND fmt)).
Proof.
  run_daemon.
  all: intros tr r [= <- <-] post Hpost; cbn in Hpost;
    try discriminate Hpost.
  all: injection Hpost as <-; decode.
  all: match goal with
       | |- exists msg,
              _ \/ (_ /\ exists fmt, (_ :: EvReqRead ?m :: _) = _ /\ _) =>
           exists m
       end.
  all: first [ left; split; [reflexivity|split; [reflexivity|eauto]]
             | right; split; [reflexivity|eexists; split; reflexivity] ].
Qed.

End Paths.

(** ** The daemon on concrete scripts *)

Section Runs.


(* A bad signature from the peer ends the funder with PEER_READ_FAILED. *)
Lemma success_needs_valid_peer_signature_witness :
  failure_code
    (snd (funder_run (test_state 1000000 0)
            (test_funder_world all_ff_channel_id 1033188))) =
    Some WIRE_OPENING_PEER_READ_FAILED /\
  existsb is_success
    (fst (funder_run (test_state 1000000 0)
            (test_funder_world all_ff_channel_id 1033188))) = false.
Proof.
  pose proof (@success_needs_valid_peer_signature test_externals
                test_points 10 1000 20000 (test_state 1000000 0)
                (test_funder_world all_ff_channel_id 1033188)) as [H _].
  specialize (H _ _ (surjective_pairing _)). destruct H as [_ H].
  apply (H (test_accept all_ff_channel_id) 7 1
           (@Build_funding_signed_msg test_externals all_ff_channel_id 1033188)
           1000008).
  - apply (nth_error_In _ 1). vm_compute. reflexivity.
  - apply (nth_error_In _ 3). vm_compute. reflexivity.
  - apply (nth_error_In _ 5). vm_compute. reflexivity.
  - vm_compute. reflexivity.
  - vm_compute. reflexivity.
Defined.

(* htlc_minimum_msat 2_000_000 against a capacity of 990_000_000 msat. *)
Lemma htlc_minimum_checked_against_capacity_witness :
  snd (check_config_bounds test_remoteconf_high_minimum
         test_funder_state test_no_peer) =
  Exit (ExitFailed WIRE_OPENING_PEER_BAD_CONFIG
    "Invalid htlc_minimum_msat %u for funding_satoshis %PRIu64 capacity_msat %PRIu64").
Proof.
  apply (proj1 (proj1 (@htlc_minimum_checked_against_capacity test_externals
                  test_funder_state test_remoteconf_high_minimum test_no_peer
                  ltac:(vm_compute; intuition discriminate)
                  ltac:(vm_compute; intuition discriminate)
                  ltac:(vm_compute; intuition discriminate)
                  ltac:(vm_compute; intuition discriminate)
                  ltac:(vm_compute; intuition discriminate)))).
  vm_compute. reflexivity.
Defined.

(** C3, as the claim states it, fails.  This remote config passes the
    to_self_delay test and the reserve test, the capacity computed for it
    is the claim's min (funding * 1000 - max (reserves) * 1000,
    max_htlc_value_in_flight_msat) = 990_000_000 msat, its
    htlc_minimum_msat is 0 and so does not exceed that capacity, and the
    validator still fails the channel with PEER_BAD_CONFIG: it announces
    512 accepted HTLCs. *)
Lemma htlc_minimum_within_capacity_still_bad_config :
  to_self_delay test_remoteconf_512_htlcs <=
    max_to_self_delay test_funder_state /\
  channel_reserve_satoshis test_remoteconf_512_htlcs <=
    funding_satoshis test_funder_state /\
  capacity_msat_of test_funder_state test_remoteconf_512_htlcs =
    Z.min (funding_satoshis test_funder_state * 1000
           - Z.max (channel_reserve_satoshis test_remoteconf_512_htlcs)
                   (channel_reserve_satoshis (localconf test_funder_state))
             * 1000)
          (max_htlc_value_in_flight_msat test_remoteconf_512_htlcs) /\
  capacity_msat_of test_funder_state test_remoteconf_512_htlcs = 990000000 /\
  htlc_minimum_msat test_remoteconf_512_htlcs * 1000 <=
    capacity_msat_of test_funder_state test_remoteconf_512_htlcs /\
  failure (snd (check_config_bounds test_remoteconf_512_htlcs
                  test_funder_state test_no_peer)) =
    Some (WIRE_OPENING_PEER_BAD_CONFIG, "max_accepted_htlcs %u too large").
Proof.
  repeat split; vm_compute; solve [reflexivity | discriminate].
Qed.

Lemma channel_reserve_is_one_percent_rounded_up_witness :
  one_percent_rounded_up 16777215 (set_reserve 16777215) /\
  (forall m ok,
     In (EvPeerWrite (Open_channel m) ok)
        (fst (funder_run (test_state 1000000 0)
                (test_funder_world all_ff_channel_id 1033189))) ->
     one_percent_rounded_up 1000000 (oc_channel_reserve_satoshis m)) /\
  (exists m,
     hd_error (fst (funder_run (test_state 1000000 0)
                      (test_funder_world all_ff_channel_id 1033189))) =
       Some (EvPeerWrite (Open_channel m) true) /\
     oc_channel_reserve_satoshis m = 10000) /\
  (exists m,
     hd_error (fst (fundee_run test_id 500000 100000000
                      (test_fundee_world test_id 533189))) =
       Some (EvPeerWrite (Accept_channel m) true) /\
     ac_channel_reserve_satoshis m = 5000) /\
  (exists s' w',
     snd (funder_run (test_state 1000000 0)
            (test_funder_world all_ff_channel_id 1033189)) = Ret tt s' w' /\
     channel_reserve_satoshis (localconf s') = 10000) /\
  (exists s' w',
     snd (fundee_run test_id 500000 100000000
            (test_fundee_world test_id 533189)) = Ret tt s' w' /\
     channel_reserve_satoshis (localconf s') = 5000).
Proof.
  pose proof (@channel_reserve_is_one_percent_rounded_up test_externals
                test_points 10 1000 20000 (test_open test_id 500000 100000000)
                (test_state 1000000 0)
                (test_funder_world all_ff_channel_id 1033189))
    as (Hrule & _ & Hfunder & _ & Hfirst & _ & Hend & _).
  pose proof (@channel_reserve_is_one_percent_rounded_up test_externals
                test_points 10 1000 20000 (test_open test_id 500000 100000000)
                (test_state 0 0) (test_fundee_world test_id 533189))
    as (_ & _ & _ & _ & _ & Hfirst' & _ & Hend').
  split; [|split; [|split; [|split; [|split]]]].
  - apply Hrule. lia.
  - apply (Hfunder ltac:(cbn; lia) _ _ (surjective_pairing _)).
  - destruct (Hfirst ltac:(cbn; lia) ltac:(cbn; lia)) as (m & Hhd & Hres & _).
    exists m. split; [exact Hhd | exact Hres].
  - destruct (Hfirst' ltac:(cbn; lia) ltac:(cbn; lia) ltac:(cbn; lia)
                ltac:(vm_compute; intuition discriminate))
      as (m & Hhd & Hres & _).
    exists m. split; [exact Hhd | exact Hres].
  - destruct (Hend (test_accept all_ff_channel_id)
                (@Build_funding_signed_msg test_externals
                   all_ff_channel_id 1033189)
                7 1 1000008 [] []
                ltac:(cbn; lia) ltac:(cbn; lia)
                eq_refl eq_refl eq_refl eq_refl eq_refl
                ltac:(cbn; lia)
                ltac:(vm_compute; intuition discriminate)
                ltac:(vm_compute; reflexivity)
                eq_refl
                ltac:(vm_compute; reflexivity))
      as (s' & w' & Hrun & Hloc & _).
    exists s', w'. split; [exact Hrun | rewrite Hloc; reflexivity].
  - destruct (Hend' (@Build_funding_created_msg test_externals
                       test_id 7 1 533189)
                500008 []
                ltac:(cbn; lia) ltac:(cbn; lia) ltac:(cbn; lia)
                ltac:(vm_compute; intuition discriminate)
                eq_refl eq_refl eq_refl eq_refl
                ltac:(vm_compute; reflexivity)
                ltac:(vm_compute; reflexivity))
      as (s' & w' & Hrun & Hloc & _).
    exists s', w'. split; [exact Hrun | rewrite Hloc; reflexivity].
Defined.

Lemma push_msat_over_limit_is_bad_param_witness :
  exists fmt,
    funder_run (test_state 1000 1000001) test_no_peer =
    ([EvPeerWrite (Error_msg None fmt) true;
      EvStatus (Status_failed WIRE_OPENING_BAD_PARAM fmt)],
     Exit (ExitFailed WIRE_OPENING_BAD_PARAM fmt)).
Proof.
  apply (@push_msat_over_limit_is_bad_param test_externals test_points 10
           (test_state 1000 1000001) test_no_peer);
    cbn; lia.
Defined.

(** C5, as the claim states it, fails: with funding 1000 and push
    1_000_001 the funder ends with BAD_PARAM, and before it ends it has
    written the error frame to the peer stream. *)
Lemma push_msat_over_limit_writes_to_peer :
  failure_code (snd (funder_run (test_state 1000 1000001) test_no_peer)) =
    Some WIRE_OPENING_BAD_PARAM /\
  filter is_peer_io (fst (funder_run (test_state 1000 1000001) test_no_peer)) =
    [EvPeerWrite (Error_msg None "push-msat must be < %PRIu64") true].
Proof. vm_compute. split; reflexivity. Qed.

Lemma funding_satoshis_limit_witness :
  failure (snd (funder_run (test_state 16777216 0) test_no_peer)) =
    Some (WIRE_OPENING_BAD_PARAM, "funding_satoshis must be < 2^24") /\
  failure (snd (fundee_run test_id 16777216 0 test_no_peer)) =
    Some (WIRE_OPENING_PEER_BAD_FUNDING, "funding_satoshis %PRIu64 too large") /\
  failure (snd (fundee_run test_id 16777215 0 test_no_peer)) <>
    Some (WIRE_OPENING_PEER_BAD_FUNDING, "funding_satoshis %PRIu64 too large").
Proof.
  split; [|split].
  - apply (proj1 (@funding_satoshis_limit test_externals test_points
                    10 1000 20000 (test_open test_id 16777216 0)
                    (test_state 16777216 0) test_no_peer)).
    cbn; lia.
  - apply (proj1 (proj2 (@funding_satoshis_limit test_externals test_points
                    10 1000 20000 (test_open test_id 16777216 0)
                    (test_state 0 0) test_no_peer))).
    cbn; lia.
  - apply (proj2 (proj2 (proj2 (@funding_satoshis_limit test_externals
                    test_points 10 1000 20000 (test_open test_id 16777215 0)
                    (test_state 0 0) test_no_peer)))).
    cbn; lia.
Defined.

Lemma max_accepted_htlcs_between_1_and_511_witness :
  check_config_bounds test_remoteconf test_funder_state test_no_peer =
    ([], Ret tt test_funder_state test_no_peer) /\
  failure_code
    (snd (check_config_bounds test_remoteconf_512_htlcs
            test_funder_state test_no_peer)) =
    Some WIRE_OPENING_PEER_BAD_CONFIG.
Proof.
  split.
  - apply (proj1 (@max_accepted_htlcs_between_1_and_511 test_externals
                    test_funder_state test_remoteconf test_no_peer
                    ltac:(vm_compute; intuition discriminate)
                    ltac:(vm_compute; intuition discriminate)
                    ltac:(vm_compute; intuition discriminate)
                    ltac:(vm_compute; intuition discriminate)
                    ltac:(vm_compute; intuition discriminate))).
    cbn; lia.
  - apply (proj2 (@max_accepted_htlcs_between_1_and_511 test_externals
                    test_funder_state test_remoteconf_512_htlcs test_no_peer
                    ltac:(vm_compute; intuition discriminate)
                    ltac:(vm_compute; intuition discriminate)
                    ltac:(vm_compute; intuition discriminate)
                    ltac:(vm_compute; intuition discriminate)
                    ltac:(vm_compute; intuition discriminate))).
    right. cbn. lia.
Defined.

(* A funding_signed that echoes another id than the 0xFF one. *)
Lemma temporary_channel_id_must_match_witness :
  failure_code
    (snd (funder_run (test_state 1000000 0)
            (test_funder_world test_id 1033189))) =
    Some WIRE_OPENING_PEER_READ_FAILED.
Proof.
  pose proof (@temporary_channel_id_must_match test_externals
                test_points 10 1000 20000 (test_state 1000000 0)
                (test_funder_world test_id 1033189)) as [H _].
  specialize (H _ _ (surjective_pairing _)). destruct H as (_ & H & _).
  apply (H (@Build_funding_signed_msg test_externals test_id 1033189)).
  - apply (nth_error_In _ 5). vm_compute. reflexivity.
  - vm_compute. intros Hid. discriminate Hid.
Defined.

(* A whole fundee session: success, descriptor handed back, exit_req. *)
Lemma exit_req_awaited_after_success_witness :
  exists msg,
    (fromwire_opening_exit_req msg = true /\
     [EvFdPass; EvReqRead (Some (@Opening_exit_req test_externals))] =
       [EvFdPass; EvReqRead msg] /\
     exists s' w',
       snd (main (E:=test_externals) ["opening"] (test_state 0 0) test_session) =
       Ret 0 s' w') \/
    (fromwire_opening_exit_req msg = false /\
     exists fmt,
       [EvFdPass; EvReqRead (Some (@Opening_exit_req test_externals))] =
         [EvFdPass; EvReqRead msg;
          EvStatus (Status_failed WIRE_OPENING_BAD_COMMAND fmt)] /\
       snd (main (E:=test_externals) ["opening"] (test_state 0 0) test_session) =
       Exit (ExitFailed WIRE_OPENING_BAD_COMMAND fmt)).
Proof.
  apply (@exit_req_awaited_after_success test_externals ["opening"]
           (test_state 0 0) test_session _ _ (surjective_pairing _)).
  vm_compute. reflexivity.
Defined.

Lemma capacity_computation_does_not_wrap_witness :
  capacity_msat_of test_funder_state test_remoteconf =
  Z.min (1000000 * 1000 - Z.max 10000 10000 * 1000) 1000000000.
Proof.
  apply (@capacity_computation_does_not_wrap test_externals
           test_funder_state test_remoteconf
           ltac:(vm_compute; intuition discriminate)
           ltac:(vm_compute; intuition discriminate)
           ltac:(vm_compute; intuition discriminate)).
Defined.

(** C2, on the code.  Handed an open_channel whose
    first_per_commitment_point is 77, a fundee whose own first
    per-commitment point ([next_per_commit[LOCAL]]) is 55 answers with an
    accept_channel that echoes the temporary channel id and carries 77,
    the peer's point, not its own. *)
Theorem fundee_accept_channel_carries_peer_point :
  next_per_commit (test_state 0 0) LOCAL = 55 /\
  exists m,
    hd_error (fst (fundee_run test_id 500000 100000000
                     (test_fundee_world test_id 533189))) =
      Some (EvPeerWrite (Accept_channel m) true) /\
    ac_temporary_channel_id m = test_id /\
    ac_first_per_commitment_point m = 77 /\
    ac_first_per_commitment_point m <> next_per_commit (test_state 0 0) LOCAL.
Proof.
  split; [reflexivity|].
  eexists. split; [vm_compute; reflexivity|].
  split; [reflexivity|]. split; [reflexivity|]. vm_compute. discriminate.
Qed.

End Runs.

(** * Further properties of the daemon *)

Section MoreArithmetic.

(** X15.  [set_reserve] is one percent rounded up, and at most the
    funding, for every funding up to 2^64 - 100; for the 99 values above
    that the sum funding + 99 wraps and the reserve it yields is 0. *)
Theorem set_reserve_on_all_of_u64 (funding : Z) :
  (0 <= funding <= 2 ^ 64 - 100 ->
   one_percent_rounded_up funding (set_reserve funding) /\
   set_reserve funding <= funding) /\
  (2 ^ 64 - 99 <= funding < 2 ^ 64 -> set_reserve funding = 0).
Proof.
  unfold one_percent_rounded_up. unfold_u64. split; intros H; lia.
Qed.

End MoreArithmetic.

Section MoreValidator.

Context {E : Externals}.

Lemma capacity_msat_of_for (st : state) (rc : channel_config) :
  capacity_msat_of st rc =
  capacity_msat_for (funding_satoshis st)
    (channel_reserve_satoshis (localconf st)) rc.
Proof. reflexivity. Qed.

(** X1.  [check_config_bounds] returns, with no event and the state and
    world as they were, exactly when the remote config passes all six
    tests (to_self_delay, reserve, htlc_minimum_msat, capacity floor,
    max_accepted_htlcs not 0 and at most 511); otherwise it fails the
    channel, and always with PEER_BAD_CONFIG. *)
Theorem validator_verdict (st : state) (rc : channel_config) (w : world) :
  (check_config_bounds rc st w = ([], Ret tt st w) <->
   config_acceptable (max_to_self_delay st) (funding_satoshis st)
     (channel_reserve_satoshis (localconf st))
     (min_effective_htlc_capacity_msat st) rc) /\
  (check_config_bounds rc st w = ([], Ret tt st w) \/
   exists fmt,
     check_config_bounds rc st w =
     channel_failed WIRE_OPENING_PEER_BAD_CONFIG fmt w).
Proof.
  unfold config_acceptable. rewrite <- capacity_msat_of_for.
  unfold channel_failed. unfold_daemon; cbn.
  repeat (split_run; cbn);
    (split; [split; [intros H; try discriminate H; lia
                     | intros H; solve [reflexivity | lia]]
            | solve [left; reflexivity | right; eexists; reflexivity]]).
Qed.

(** X2.  The tests of [check_config_bounds] run in order and the first
    that fails names the failure: a to_self_delay above the limit is
    reported whatever the rest holds, then a remote reserve above the
    funding, and, once the htlc_minimum_msat test has passed, a capacity
    below the required floor. *)
Theorem validator_tests_in_order
    (st : state) (rc : channel_config) (w : world) :
  (to_self_delay rc > max_to_self_delay st ->
   check_config_bounds rc st w =
   channel_failed WIRE_OPENING_PEER_BAD_CONFIG
     "to_self_delay %u larger than %u" w) /\
  (to_self_delay rc <= max_to_self_delay st ->
   channel_reserve_satoshis rc > funding_satoshis st ->
   check_config_bounds rc st w =
   channel_failed WIRE_OPENING_PEER_BAD_CONFIG
     "Invalid channel_reserve_satoshis %PRIu64 for funding_satoshis %PRIu64" w) /\
  (to_self_delay rc <= max_to_self_delay st ->
   channel_reserve_satoshis rc <= funding_satoshis st ->
   mul64 (htlc_minimum_msat rc) 1000 <= capacity_msat_of st rc ->
   capacity_msat_of st rc < min_effective_htlc_capacity_msat st ->
   check_config_bounds rc st w =
   channel_failed WIRE_OPENING_PEER_BAD_CONFIG
     "Channel capacity with funding %PRIu64 msat, reserves %PRIu64/%PRIu64 msat, max_htlc_value_in_flight_msat %PRIu64 is %PRIu64 msat, which is below %PRIu64 msat" w).
Proof.
  unfold channel_failed. unfold_daemon; cbn.
  repeat (split_run; cbn); (split; [|split]); intros;
    solve [reflexivity | lia].
Qed.

End MoreValidator.

Section MorePaths.

Context {E : Externals}.

(** X3.  The fundee fails the channel before it sends or reads
    anything when the message it was handed is not an open_channel
    (PEER_BAD_INITIAL_MESSAGE), and, for a funding below 2^24, when
    push_msat exceeds 1000 * funding_satoshis or feerate_per_kw lies
    below min_feerate or above max_feerate (PEER_BAD_FUNDING, the tests
    in that order). *)
Theorem fundee_rejects_bad_open_channel
    (ours : points) (min_feerate max_feerate : Z) (peer_msg : peer_msg)
    (st : state) (w : world) :
  (fromwire_open_channel peer_msg = None ->
   recv_channel ours min_feerate max_feerate peer_msg st w =
   channel_failed WIRE_OPENING_PEER_BAD_INITIAL_MESSAGE
     "Parsing open_channel %s" w) /\
  (forall o, peer_msg = Open_channel o ->
     0 <= oc_funding_satoshis o < 2 ^ 24 ->
     (oc_push_msat o > oc_funding_satoshis o * 1000 ->
      recv_channel ours min_feerate max_feerate peer_msg st w =
      channel_failed WIRE_OPENING_PEER_BAD_FUNDING
        "push_msat %PRIu64 too large for funding_satoshis %PRIu64" w) /\
     (oc_push_msat o <= oc_funding_satoshis o * 1000 ->
      oc_feerate_per_kw o < min_feerate ->
      recv_channel ours min_feerate max_feerate peer_msg st w =
      channel_failed WIRE_OPENING_PEER_BAD_FUNDING
        "feerate_per_kw %u below minimum %u" w) /\
     (oc_push_msat o <= oc_funding_satoshis o * 1000 ->
      min_feerate <= oc_feerate_per_kw o ->
      oc_feerate_per_kw o > max_feerate ->
      recv_channel ours min_feerate max_feerate peer_msg st w =
      channel_failed WIRE_OPENING_PEER_BAD_FUNDING
        "feerate_per_kw %u above maximum %u" w)).
Proof.
  split.
  - intros H. unfold recv_channel, bind, or_peer_failed. rewrite H.
    reflexivity.
  - intros o -> Hf. change (2 ^ 24) with 16777216 in Hf.
    assert (Hmul : mul64 (oc_funding_satoshis o) 1000 =
                   oc_funding_satoshis o * 1000).
    { unfold mul64. apply wrap64_small. unfold_u64. lia. }
    unfold channel_failed. unfold_daemon; cbn. rewrite Hmul.
    destruct (oc_funding_satoshis o >=? 16777216) eqn:H1; [lia|].
    destruct (oc_push_msat o >? oc_funding_satoshis o * 1000) eqn:H2; cbn.
    { repeat split; intros; solve [reflexivity | lia]. }
    destruct (oc_feerate_per_kw o <? min_feerate) eqn:H3; cbn.
    { repeat split; intros; solve [reflexivity | lia]. }
    destruct (oc_feerate_per_kw o >? max_feerate) eqn:H4; cbn.
    { repeat split; intros; solve [reflexivity | lia]. }
    repeat split; intros; lia.
Qed.

(** X4.  The fundee sends accept_channel only for an open_channel it
    has validated: funding below 2^24, push_msat within the funding,
    feerate within the bounds, and a remote config that passes the
    validator with our reserve at one percent of the funding.  It is the
    first thing the fundee does on the peer stream, and it advertises
    our config with that reserve and our four keys. *)
Theorem accept_channel_sent_only_after_validation
    (ours : points) (min_feerate max_feerate : Z) (peer_msg : peer_msg)
    (st : state) (w : world) :
  forall tr r,
    recv_channel ours min_feerate max_feerate peer_msg st w = (tr, r) ->
    forall m ok, In (EvPeerWrite (Accept_channel m) ok) tr ->
    exists o,
      peer_msg = Open_channel o /\
      oc_funding_satoshis o < 2 ^ 24 /\
      oc_push_msat o <= mul64 (oc_funding_satoshis o) 1000 /\
      min_feerate <= oc_feerate_per_kw o <= max_feerate /\
      config_acceptable (max_to_self_delay st) (oc_funding_satoshis o)
        (set_reserve (oc_funding_satoshis o))
        (min_effective_htlc_capacity_msat st)
        (open_remoteconf o tal_channel_config) /\
      hd_error tr = Some (EvPeerWrite (Accept_channel m) ok) /\
      accept_remoteconf m =
        set_channel_reserve_satoshis (localconf st)
          (set_reserve (oc_funding_satoshis o)) /\
      accept_points m = ours.
Proof.
  change (2 ^ 24) with 16777216. unfold config_acceptable.
  run_daemon.
  all: intros tr r [= <- <-] xm xok Hin; in_trace Hin.
  all: injection Hin as <- <-; decode; fold_capacity.
  all: eexists; split; [reflexivity|].
  all: destruct ours; cbn.
  all: repeat split; solve [reflexivity | lia].
Qed.

(** X5.  The funder asks the supervisor for the funding transaction
    (open_resp) only after its own funding and push_msat bounds held and
    the peer answered open_channel with an accept_channel that echoes
    the temporary id, keeps minimum_depth within the limit and passes
    the validator; open_resp carries our funding key and theirs. *)
Theorem funding_requested_only_after_validation
    (ours : points) (max_minimum_depth : Z) (st : state) (w : world) :
  forall tr r, open_channel ours max_minimum_depth st w = (tr, r) ->
  forall k1 k2, In (EvStatus (Opening_open_resp k1 k2)) tr ->
  funding_satoshis st < 2 ^ 24 /\
  push_msat st <= mul64 1000 (funding_satoshis st) /\
  exists a,
    nth_error tr 1 = Some (EvPeerRead (Some (Accept_channel a))) /\
    ac_temporary_channel_id a = all_ff_channel_id /\
    ac_minimum_depth a <= max_minimum_depth /\
    config_acceptable (max_to_self_delay st) (funding_satoshis st)
      (set_reserve (funding_satoshis st))
      (min_effective_htlc_capacity_msat st) (accept_remoteconf a) /\
    k1 = funding_pubkey ours /\ k2 = ac_funding_pubkey a.
Proof.
  change (2 ^ 24) with 16777216. unfold config_acceptable.
  run_daemon.
  all: intros tr r [= <- <-] xk1 xk2 Hin; in_trace Hin.
  all: injection Hin as <- <-; decode; fold_capacity.
  all: split; [lia|split; [lia|]].
  all: eexists; split; [reflexivity|].
  all: repeat split; solve [reflexivity | lia | congruence].
Qed.

(** X6.  In both paths a failed write of a protocol message ends the
    run with PEER_WRITE_FAILED, and a run ends with PEER_WRITE_FAILED
    only after such a write; the outcome of writing an error frame is
    ignored. *)
Theorem failed_write_is_peer_write_failed
    (ours : points) (max_minimum_depth min_feerate max_feerate : Z)
    (peer_msg : peer_msg) (st : state) (w : world) :
  (forall tr r, open_channel ours max_minimum_depth st w = (tr, r) ->
     (forall m, In (EvPeerWrite m false) tr -> is_error_frame m = false ->
        failure_code r = Some WIRE_OPENING_PEER_WRITE_FAILED) /\
     (failure_code r = Some WIRE_OPENING_PEER_WRITE_FAILED ->
      exists m, In (EvPeerWrite m false) tr /\ is_error_frame m = false)) /\
  (forall tr r,
     recv_channel ours min_feerate max_feerate peer_msg st w = (tr, r) ->
     (forall m, In (EvPeerWrite m false) tr -> is_error_frame m = false ->
        failure_code r = Some WIRE_OPENING_PEER_WRITE_FAILED) /\
     (failure_code r = Some WIRE_OPENING_PEER_WRITE_FAILED ->
      exists m, In (EvPeerWrite m false) tr /\ is_error_frame m = false)).
Proof.
  split.
  - run_daemon.
    all: intros tr r [= <- <-]; decode.
    all: split;
      [ intros xm Hin Herr; in_trace Hin; try reflexivity;
        injection Hin as <- Hok; cbn in Herr; solve [discriminate Herr | congruence]
      | intros Hf; cbn in Hf;
        first [ discriminate Hf
              | write_outcomes; eexists; split; [cbn; eauto 10 | reflexivity] ] ].
  - run_daemon.
    all: intros tr r [= <- <-]; decode.
    all: split;
      [ intros xm Hin Herr; in_trace Hin; try reflexivity;
        injection Hin as <- Hok; cbn in Herr; solve [discriminate Herr | congruence]
      | intros Hf; cbn in Hf;
        first [ discriminate Hf
              | write_outcomes; eexists; split; [cbn; eauto 10 | reflexivity] ] ].
Qed.

(** X7.  In both paths a failed read from the peer, and a message that
    is not of a type the path expects (accept_channel or funding_signed
    for the funder, funding_created for the fundee), ends the run with
    PEER_READ_FAILED. *)
Theorem failed_read_is_peer_read_failed
    (ours : points) (max_minimum_depth min_feerate max_feerate : Z)
    (peer_msg : peer_msg) (st : state) (w : world) :
  (forall tr r, open_channel ours max_minimum_depth st w = (tr, r) ->
     (In (EvPeerRead None) tr ->
      failure_code r = Some WIRE_OPENING_PEER_READ_FAILED) /\
     (forall m, In (EvPeerRead (Some m)) tr ->
        fromwire_accept_channel m = None ->
        fromwire_funding_signed m = None ->
        failure_code r = Some WIRE_OPENING_PEER_READ_FAILED)) /\
  (forall tr r,
     recv_channel ours min_feerate max_feerate peer_msg st w = (tr, r) ->
     (In (EvPeerRead None) tr ->
      failure_code r = Some WIRE_OPENING_PEER_READ_FAILED) /\
     (forall m, In (EvPeerRead (Some m)) tr ->
        fromwire_funding_created m = None ->
        failure_code r = Some WIRE_OPENING_PEER_READ_FAILED)).
Proof.
  split.
  - run_daemon.
    all: intros tr r [= <- <-]; decode.
    all: split;
      [ intros Hin; in_trace Hin; reflexivity
      | intros xm Hin Ha Hs; in_trace Hin; try reflexivity;
        injection Hin as <-; cbn in *; congruence ].
  - run_daemon.
    all: intros tr r [= <- <-]; decode.
    all: split;
      [ intros Hin; in_trace Hin; reflexivity
      | intros xm Hin Hc; in_trace Hin; try reflexivity;
        injection Hin as <-; cbn in *; congruence ].
Qed.

(** X8.  A funder path that returns has done exactly this, in this
    order: sent open_channel, read accept_channel, told the supervisor
    the two funding keys, read the outpoint from the supervisor, sent
    funding_created for it with our signature on the peer's commitment,
    read funding_signed, and emitted the success result with the peer's
    config, signature, basepoints and per-commitment point.  The state
    then holds the channel handle, the outpoint and the peer's config,
    and two peer messages and one request have been consumed. *)
Theorem funder_success_dialogue
    (ours : points) (max_minimum_depth : Z) (st : state) (w : world) :
  forall tr s' w',
    open_channel ours max_minimum_depth st w = (tr, Ret tt s' w') ->
    exists a txid txout fs chan,
      funder_channel ours st a txid txout = Some chan /\
      tr =
        [EvPeerWrite (Open_channel (funder_open_channel ours st)) true;
         EvPeerRead (Some (Accept_channel a));
         EvStatus (Opening_open_resp (funding_pubkey ours)
                     (ac_funding_pubkey a));
         EvReqRead (Some (Opening_open_funding txid txout));
         EvPeerWrite
           (Funding_created (funder_funding_created ours st a txid txout chan))
           true;
         EvPeerRead (Some (Funding_signed fs));
         EvStatus
           (Opening_open_funding_resp (accept_remoteconf a) (fs_signature fs)
              (cs s')
              (ac_revocation_basepoint a) (ac_payment_basepoint a)
              (ac_delayed_payment_basepoint a)
              (ac_first_per_commitment_point a))] /\
      channel s' = Some chan /\
      funding_txid s' = txid /\ funding_txout s' = txout /\
      remoteconf s' = accept_remoteconf a /\
      next_per_commit s' REMOTE = ac_first_per_commitment_point a /\
      next_per_commit s' LOCAL = next_per_commit st LOCAL /\
      funding_satoshis s' = funding_satoshis st /\
      push_msat s' = push_msat st /\
      our_secrets s' = our_secrets st /\
      w' = {| peer_in := tl (tl (peer_in w));
              peer_wr := tl (tl (peer_wr w));
              req_in := tl (req_in w) |}.
Proof.
  run_daemon.
  all: intros tr s' w' Hrun; try discriminate Hrun.
  injection Hrun as <- <- <-. decode; cbn [fst snd] in *.
  write_outcomes.
  exists a, s0, z, f, s. repeat split; assumption.
Qed.

(** X9.  A fundee path that returns has done exactly this, in this
    order: sent accept_channel, read a funding_created that echoes the
    temporary id, sent funding_signed with our signature on the peer's
    commitment, and emitted the success result with the outpoint, the
    remote config of the state, the peer's signature, keys and
    per-commitment point.  The state then holds the channel handle and
    the funding the peer proposed, and its remote config holds the six
    parameters of the open_channel; its minimum_depth, which open_channel
    does not carry and [recv_channel] never writes, is left unstated. *)
Theorem fundee_success_dialogue
    (ours : points) (min_feerate max_feerate : Z) (peer_msg : peer_msg)
    (st : state) (w : world) :
  forall tr s' w',
    recv_channel ours min_feerate max_feerate peer_msg st w =
      (tr, Ret tt s' w') ->
    exists o m fc chan,
      peer_msg = Open_channel o /\
      fundee_channel ours st o fc = Some chan /\
      fc_temporary_channel_id fc = oc_temporary_channel_id o /\
      tr =
        [EvPeerWrite (Accept_channel m) true;
         EvPeerRead (Some (Funding_created fc));
         EvPeerWrite
           (Funding_signed (fundee_funding_signed ours st o chan)) true;
         EvStatus
           (Opening_accept_resp (fc_funding_txid fc)
              (fc_funding_output_index fc)
              (remoteconf s') (fc_signature fc)
              (cs s')
              (oc_funding_pubkey o) (oc_revocation_basepoint o)
              (oc_payment_basepoint o) (oc_delayed_payment_basepoint o)
              (oc_first_per_commitment_point o))] /\
      ac_temporary_channel_id m = oc_temporary_channel_id o /\
      accept_remoteconf m =
        set_channel_reserve_satoshis (localconf st)
          (set_reserve (oc_funding_satoshis o)) /\
      accept_points m = ours /\
      channel s' = Some chan /\
      funding_txid s' = fc_funding_txid fc /\
      funding_txout s' = fc_funding_output_index fc /\
      funding_satoshis s' = oc_funding_satoshis o /\
      push_msat s' = oc_push_msat o /\
      feerate_per_kw s' = oc_feerate_per_kw o /\
      holds_open_channel_config o (remoteconf s') /\
      next_per_commit s' LOCAL = next_per_commit st LOCAL /\
      w' = {| peer_in := tl (peer_in w);
              peer_wr := tl (tl (peer_wr w));
              req_in := req_in w |}.
Proof.
  run_daemon.
  all: intros tr s' w' Hrun; try discriminate Hrun.
  injection Hrun as <- <- <-. decode; cbn [fst snd] in *.
  write_outcomes.
  eexists o, _, f, s. destruct ours.
  repeat split; solve [assumption | symmetry; assumption | reflexivity].
Qed.

(** X16.  Whatever the funder sends as funding_created carries the 0xFF
    id, the outpoint the supervisor gave and our signature on the REMOTE
    commitment of the channel built from the accept_channel.  The fundee
    sends funding_signed only after the peer's signature on our LOCAL
    commitment has verified, and it carries the temporary id and our
    signature on the REMOTE commitment. *)
Theorem signatures_sent_to_peer
    (ours : points) (max_minimum_depth min_feerate max_feerate : Z)
    (peer_msg : peer_msg) (st : state) (w : world) :
  (forall tr r, open_channel ours max_minimum_depth st w = (tr, r) ->
     forall m ok, In (EvPeerWrite (Funding_created m) ok) tr ->
     exists a txid txout chan,
       nth_error tr 1 = Some (EvPeerRead (Some (Accept_channel a))) /\
       nth_error tr 3 =
         Some (EvReqRead (Some (Opening_open_funding txid txout))) /\
       funder_channel ours st a txid txout = Some chan /\
       m = funder_funding_created ours st a txid txout chan) /\
  (forall tr r,
     recv_channel ours min_feerate max_feerate peer_msg st w = (tr, r) ->
     forall m ok, In (EvPeerWrite (Funding_signed m) ok) tr ->
     exists o fc chan,
       peer_msg = Open_channel o /\
       nth_error tr 1 = Some (EvPeerRead (Some (Funding_created fc))) /\
       fc_temporary_channel_id fc = oc_temporary_channel_id o /\
       fundee_channel ours st o fc = Some chan /\
       check_tx_sig (channel_tx chan (next_per_commit st LOCAL) LOCAL) 0
         (bitcoin_redeem_2of2 (funding_pubkey ours) (oc_funding_pubkey o))
         (oc_funding_pubkey o) (fc_signature fc) = true /\
       m = fundee_funding_signed ours st o chan).
Proof.
  split.
  - run_daemon.
    all: intros tr r [= <- <-] xm xok Hin; in_trace Hin.
    all: injection Hin as <- <-; decode; cbn [fst snd] in *.
    all: exists a, s0, z, s; repeat split; assumption.
  - run_daemon.
    all: intros tr r [= <- <-] xm xok Hin; in_trace Hin.
    all: injection Hin as <- <-; decode; cbn [fst snd] in *.
    all: exists o, f, s; repeat split;
      solve [assumption | symmetry; assumption].
Qed.

(** X10.  [derive_our_basepoints] either fails with
    KEY_DERIVATION_FAILED, the status being its only event, or returns
    without any event: then the secrets and the shaseed in the state are
    the five fields of the HKDF output, each returned point is the public
    key of the matching secret, next_per_commit[LOCAL] is the point of
    the shachain secret at index 2^48 - 1, and the transport state, the
    local config, the limits and next_per_commit[REMOTE] are untouched. *)
Theorem derive_our_basepoints_outcome
    (seed : privkey) (st : state) (w : world) :
  match derive_our_basepoints seed st w with
  | (tr, Ret pts s' w') =>
      tr = [] /\ w' = w /\
      hkdf_sha256_keys seed =
        (funding_privkey (our_secrets s'),
         revocation_basepoint_secret (our_secrets s'),
         payment_basepoint_secret (our_secrets s'),
         delayed_payment_basepoint_secret (our_secrets s'),
         shaseed s') /\
      pubkey_from_privkey (funding_privkey (our_secrets s')) =
        Some (funding_pubkey pts) /\
      pubkey_from_privkey (revocation_basepoint_secret (our_secrets s')) =
        Some (revocation_basepoint pts) /\
      pubkey_from_privkey (payment_basepoint_secret (our_secrets s')) =
        Some (payment_basepoint pts) /\
      pubkey_from_privkey (delayed_payment_basepoint_secret (our_secrets s')) =
        Some (delayed_payment_basepoint pts) /\
      secp256k1_ec_pubkey_create
        (shachain_from_seed (shaseed s') (2 ^ 48 - 1)) =
        Some (next_per_commit s' LOCAL) /\
      next_per_commit s' REMOTE = next_per_commit st REMOTE /\
      cs s' = cs st /\ localconf s' = localconf st /\
      max_to_self_delay s' = max_to_self_delay st /\
      min_effective_htlc_capacity_msat s' =
        min_effective_htlc_capacity_msat st
  | (tr, Exit e) =>
      exists fmt,
        e = ExitFailed WIRE_OPENING_KEY_DERIVATION_FAILED fmt /\
        tr = [EvStatus (Status_failed WIRE_OPENING_KEY_DERIVATION_FAILED fmt)]
  end.
Proof.
  change (2 ^ 48 - 1) with 281474976710655.
  run_daemon.
  all: try (eexists; split; reflexivity).
  repeat split; solve [assumption | reflexivity].
Qed.

(** X11.  After a well-addressed accept_channel the funder fails with
    BAD_PARAM when minimum_depth exceeds the limit; it fails with
    PEER_READ_FAILED when the supervisor's reply to open_resp is not an
    outpoint; and when [new_channel] refuses the configuration it fails
    with BAD_PARAM without ever sending funding_created. *)
Theorem funder_rejects_after_accept_channel
    (ours : points) (max_minimum_depth : Z) (st : state) (w : world) :
  forall tr r, open_channel ours max_minimum_depth st w = (tr, r) ->
  (forall a, nth_error tr 1 = Some (EvPeerRead (Some (Accept_channel a))) ->
     ac_temporary_channel_id a = all_ff_channel_id ->
     ac_minimum_depth a > max_minimum_depth ->
     failure r = Some (WIRE_OPENING_BAD_PARAM,
                       "minimum_depth %u larger than %u")) /\
  (forall m, nth_error tr 3 = Some (EvReqRead m) ->
     fromwire_opening_open_funding m = None ->
     failure r = Some (WIRE_OPENING_PEER_READ_FAILED,
                       "Expected valid opening_open_funding: %s")) /\
  (forall a txid txout,
     nth_error tr 1 = Some (EvPeerRead (Some (Accept_channel a))) ->
     nth_error tr 3 =
       Some (EvReqRead (Some (Opening_open_funding txid txout))) ->
     funder_channel ours st a txid txout = None ->
     failure r = Some (WIRE_OPENING_BAD_PARAM,
                       "could not create channel with given config") /\
     forall m ok, ~ In (EvPeerWrite (Funding_created m) ok) tr).
Proof.
  run_daemon.
  all: intros tr r [= <- <-]; decode; cbn [fst snd] in *.
  all: split; [|split];
    [ intros xa Hn Hid Hd; cbn in Hn; try discriminate Hn;
      inversion Hn; subst;
      try solve [reflexivity | congruence | lia | cbn in *; congruence]
    | intros xm Hn Hp; cbn in Hn; try discriminate Hn;
      inversion Hn; subst;
      try solve [reflexivity | cbn in *; congruence ]
    | intros xa xtxid xtxout Ha Ho Hc; cbn in Ha, Ho;
      try discriminate Ha; try discriminate Ho;
      inversion Ha; inversion Ho; subst;
      unfold funder_channel in Hc;
      try match goal with
          | H : hd None ?l = Some _, H' : fromwire_opening_open_funding (hd None ?l) = None |- _ =>
              rewrite H in H'; discriminate H'
          end;
      try congruence;
      try (split; [reflexivity|intros xm xok Hin; in_trace Hin]) ].
Qed.

(** X18.  Provided the signature functions agree (a signature made with
    a private key verifies against its public key) and the 2-of-2 script
    does not depend on the order of the two keys, the signature
    [sign_remote_commit] makes on a transaction passes
    [check_commit_sig] as the peer calls it, with the two funding keys
    in the opposite roles. *)
Theorem our_commit_signature_passes_peer_check
    (st : state) (our_funding_key their_funding_key : pubkey)
    (tx : bitcoin_tx) :
  (forall t i wscript priv pub,
     pubkey_from_privkey priv = Some pub ->
     check_tx_sig t i wscript pub (sign_tx_input t i wscript priv pub) = true) ->
  (forall a b, bitcoin_redeem_2of2 a b = bitcoin_redeem_2of2 b a) ->
  pubkey_from_privkey (funding_privkey (our_secrets st)) =
    Some our_funding_key ->
  check_commit_sig their_funding_key our_funding_key tx
    (sign_remote_commit st our_funding_key their_funding_key tx) = true.
Proof.
  intros Hsig Hscript Hkey. unfold check_commit_sig, sign_remote_commit.
  rewrite (Hscript their_funding_key our_funding_key).
  apply Hsig. exact Hkey.
Qed.

End MorePaths.

Section MoreMain.

Context {E : Externals}.

Lemma fromwire_opening_open_inv (m : option control_msg)
    (sat push feerate depth : Z) :
  fromwire_opening_open m = Some (sat, push, feerate, depth) ->
  m = Some (Opening_open sat push feerate depth).
Proof. destruct m as [[]|]; cbn; congruence. Qed.

(** X12.  When [main] hands the peer descriptor back, no failure has
    been reported before, and afterwards it neither touches the peer
    stream nor hands the descriptor back again: the next thing it does
    is read the control channel. *)
Theorem peer_stream_unused_after_handback
    (argv : list string) (st : state) (w : world) :
  forall tr r, main argv st w = (tr, r) ->
  forall before after, around_fdpass tr = Some (before, after) ->
  existsb is_failed_status before = false /\
  existsb is_peer_io after = false /\
  existsb is_fdpass after = false /\
  exists msg, hd_error after = Some (EvReqRead msg).
Proof.
  run_daemon.
  all: intros tr r [= <- <-] before after Hsplit; cbn in Hsplit;
    try discriminate Hsplit.
  all: injection Hsplit as <- <-.
  all: repeat split; try reflexivity; eexists; reflexivity.
Qed.

(** X13.  When the request that should select the role is neither
    open nor accept (or cannot be read), [main] runs neither path: it
    emits no result and does nothing on the peer stream, hands the
    descriptor back all the same and waits for exit_req, returning 0 if
    it comes and ending with BAD_COMMAND otherwise. *)
Theorem main_skips_unknown_role
    (argv : list string) (st : state) (w : world) :
  forall tr r, main argv st w = (tr, r) ->
  forall m, nth_error tr 1 = Some (EvReqRead m) ->
  fromwire_opening_open m = None ->
  fromwire_opening_accept m = None ->
  existsb is_success tr = false /\
  existsb is_peer_io tr = false /\
  nth_error tr 2 = Some EvFdPass /\
  exists last,
    nth_error tr 3 = Some (EvReqRead last) /\
    (fromwire_opening_exit_req last = true ->
     List.length tr = 4%nat /\ exists s' w', r = Ret 0 s' w') /\
    (fromwire_opening_exit_req last = false ->
     failure_code r = Some WIRE_OPENING_BAD_COMMAND).
Proof.
  run_daemon.
  all: intros tr r [= <- <-] xm Hn Ho Ha; cbn in Hn; try discriminate Hn.
  all: inversion Hn; subst; clear Hn.
  all: try congruence.
  all: repeat split; try reflexivity.
  all: eexists; split; [reflexivity|split]; cbn; intros Hx;
    try discriminate Hx; try reflexivity.
  all: split; [reflexivity|eauto].
Qed.

(** X14.  With the single argument --version [main] prints the version
    and exits 0 without reading anything.  Otherwise a first request
    that is not init (or cannot be read) ends it with BAD_COMMAND, a key
    derivation failure ends it right after init, and nothing happens on
    the peer stream before init and an open or accept request have been
    read. *)
Theorem main_start_up (argv : list string) (st : state) (w : world) :
  (forall prog,
     main [prog; "--version"] st w = ([EvStdout version], Exit ExitOk)) /\
  (forall tr r, main argv st w = (tr, r) ->
     (forall m, hd_error tr = Some (EvReqRead m) ->
        fromwire_opening_init m = None ->
        tr = [EvReqRead m;
              EvStatus (Status_failed WIRE_OPENING_BAD_COMMAND "%s")] /\
        r = Exit (ExitFailed WIRE_OPENING_BAD_COMMAND "%s")) /\
     (failure_code r = Some WIRE_OPENING_KEY_DERIVATION_FAILED ->
      exists init fmt,
        tr = [EvReqRead (Some (Opening_init init));
              EvStatus
                (Status_failed WIRE_OPENING_KEY_DERIVATION_FAILED fmt)]) /\
     (existsb is_peer_io tr = true ->
      exists init m,
        hd_error tr = Some (EvReqRead (Some (Opening_init init))) /\
        nth_error tr 1 = Some (EvReqRead m) /\
        (fromwire_opening_open m <> None \/
         fromwire_opening_accept m <> None))).
Proof.
  split.
  - intros prog. reflexivity.
  - run_daemon.
    all: intros tr r [= <- <-].
    all: split;
      [ intros xm Hh Hi; cbn in Hh; try discriminate Hh;
        inversion Hh; subst; cbn in Hi; try discriminate Hi;
        try (split; reflexivity)
      | split;
        [ intros Hf; cbn in Hf;
          first [ discriminate Hf | eexists; eexists; reflexivity ]
        | intros Hio; cbn in Hio;
          first [ discriminate Hio
                | eexists; eexists; split; [reflexivity|split; [reflexivity|]];
                  first [ left; congruence | right; congruence ] ] ] ].
Qed.

(** X17.  Every open_channel that [main] sends follows an init and an
    open request and is the first thing done on the peer stream; it
    carries the 0xFF id, the funding, push_msat and feerate of the open
    request, the config of init with the reserve at one percent of the
    funding, the public keys of the four secrets derived from init's
    seed, and the point of the shachain secret at index 2^48 - 1. *)
Theorem main_open_channel_from_init_and_keys
    (argv : list string) (st : state) (w : world) :
  forall tr r, main argv st w = (tr, r) ->
  forall m ok, In (EvPeerWrite (Open_channel m) ok) tr ->
  exists init sat push feerate depth f rv p d sh,
    nth_error tr 0 = Some (EvReqRead (Some (Opening_init init))) /\
    nth_error tr 1 =
      Some (EvReqRead (Some (Opening_open sat push feerate depth))) /\
    nth_error tr 2 = Some (EvPeerWrite (Open_channel m) ok) /\
    hkdf_sha256_keys (init_seed init) = (f, rv, p, d, sh) /\
    pubkey_from_privkey f = Some (oc_funding_pubkey m) /\
    pubkey_from_privkey rv = Some (oc_revocation_basepoint m) /\
    pubkey_from_privkey p = Some (oc_payment_basepoint m) /\
    pubkey_from_privkey d = Some (oc_delayed_payment_basepoint m) /\
    secp256k1_ec_pubkey_create (shachain_from_seed sh (2 ^ 48 - 1)) =
      Some (oc_first_per_commitment_point m) /\
    oc_temporary_channel_id m = all_ff_channel_id /\
    oc_funding_satoshis m = sat /\ oc_push_msat m = push /\
    oc_feerate_per_kw m = feerate /\
    oc_channel_reserve_satoshis m = set_reserve sat /\
    oc_dust_limit_satoshis m = dust_limit_satoshis (init_localconf init) /\
    oc_max_htlc_value_in_flight_msat m =
      max_htlc_value_in_flight_msat (init_localconf init) /\
    oc_htlc_minimum_msat m = htlc_minimum_msat (init_localconf init) /\
    oc_to_self_delay m = to_self_delay (init_localconf init) /\
    oc_max_accepted_htlcs m = max_accepted_htlcs (init_localconf init).
Proof.
  change (2 ^ 48 - 1) with 281474976710655.
  run_daemon.
  all: intros tr r [= <- <-] xm xok Hin; in_trace Hin.
  all: injection Hin as <- <-.
  all: match goal with
       | H : fromwire_opening_open _ = Some _ |- _ =>
           apply fromwire_opening_open_inv in H; rewrite H
       end.
  all: do 10 eexists.
  all: repeat split; solve [reflexivity | eassumption].
Qed.

End MoreMain.

(** ** More runs on concrete scripts *)

Section MoreRuns.

Lemma set_reserve_on_all_of_u64_witness :
  one_percent_rounded_up 18446744073709551516
    (set_reserve 18446744073709551516) /\
  set_reserve 18446744073709551615 = 0.
Proof.
  split.
  - apply (proj1 (set_reserve_on_all_of_u64 18446744073709551516)).
    vm_compute. intuition discriminate.
  - apply (proj2 (set_reserve_on_all_of_u64 18446744073709551615)).
    vm_compute. intuition discriminate.
Defined.

(* to_self_delay 1009 against a limit of 1008. *)
Lemma validator_tests_in_order_witness :
  check_config_bounds test_remoteconf_long_delay test_funder_state
    test_no_peer =
  channel_failed WIRE_OPENING_PEER_BAD_CONFIG
    "to_self_delay %u larger than %u" test_no_peer.
Proof.
  apply (proj1 (@validator_tests_in_order test_externals
                  test_funder_state test_remoteconf_long_delay test_no_peer)).
  vm_compute. reflexivity.
Defined.

(* An open_channel that pushes 1_000_001 msat of a funding of 1000. *)
Lemma fundee_rejects_bad_open_channel_witness :
  fundee_run test_id 1000 1000001 test_no_peer =
  channel_failed WIRE_OPENING_PEER_BAD_FUNDING
    "push_msat %PRIu64 too large for funding_satoshis %PRIu64" test_no_peer.
Proof.
  apply (proj1 (proj2 (@fundee_rejects_bad_open_channel test_externals
                  test_points 1000 20000
                  (Open_channel (test_open test_id 1000 1000001))
                  (test_state 0 0) test_no_peer)
                _ eq_refl ltac:(vm_compute; intuition discriminate))).
  vm_compute. reflexivity.
Defined.

Lemma accept_channel_sent_only_after_validation_witness :
  exists o,
    Open_channel (test_open test_id 500000 100000000) = Open_channel o /\
    config_acceptable 1008 (oc_funding_satoshis o)
      (set_reserve (oc_funding_satoshis o)) 1000000
      (open_remoteconf o (@tal_channel_config test_externals)).
Proof.
  destruct (@accept_channel_sent_only_after_validation test_externals
              test_points 1000 20000
              (Open_channel (test_open test_id 500000 100000000))
              (test_state 0 0) (test_fundee_world test_id 533189)
              _ _ (surjective_pairing _) test_accept_sent true)
    as (o & Hmsg & _ & _ & _ & Hconf & _).
  - apply (nth_error_In _ 0). vm_compute. reflexivity.
  - exists o. split; [exact Hmsg | exact Hconf].
Defined.

Lemma funding_requested_only_after_validation_witness :
  funding_satoshis (test_state 1000000 0) < 2 ^ 24 /\
  push_msat (test_state 1000000 0) <=
    mul64 1000 (funding_satoshis (test_state 1000000 0)).
Proof.
  destruct (@funding_requested_only_after_validation test_externals
              test_points 10 (test_state 1000000 0)
              (test_funder_world all_ff_channel_id 1033189)
              _ _ (surjective_pairing _) 33 63)
    as (Hf & Hp & _).
  - apply (nth_error_In _ 2). vm_compute. reflexivity.
  - split; [exact Hf | exact Hp].
Defined.

Lemma failed_write_is_peer_write_failed_witness :
  failure_code (snd (funder_run (test_state 1000000 0) test_deaf_peer)) =
  Some WIRE_OPENING_PEER_WRITE_FAILED.
Proof.
  pose proof (@failed_write_is_peer_write_failed test_externals
                test_points 10 1000 20000
                (Open_channel (test_open test_id 500000 0))
                (test_state 1000000 0) test_deaf_peer) as [H _].
  specialize (H _ _ (surjective_pairing _)). destruct H as [H _].
  apply (H (Open_channel
              (funder_open_channel test_points (test_state 1000000 0)))).
  - apply (nth_error_In _ 0). vm_compute. reflexivity.
  - reflexivity.
Defined.

(* The peer hangs up after open_channel. *)
Lemma failed_read_is_peer_read_failed_witness :
  failure_code (snd (funder_run (test_state 1000000 0) test_no_peer)) =
  Some WIRE_OPENING_PEER_READ_FAILED.
Proof.
  pose proof (@failed_read_is_peer_read_failed test_externals
                test_points 10 1000 20000
                (Open_channel (test_open test_id 500000 0))
                (test_state 1000000 0) test_no_peer) as [H _].
  specialize (H _ _ (surjective_pairing _)). destruct H as [H _].
  apply H. apply (nth_error_In _ 1). vm_compute. reflexivity.
Defined.

(* The funder's dialogue with a peer that signs correctly. *)
Lemma funder_success_dialogue_witness :
  exists a txid txout chan,
    funder_channel test_points (test_state 1000000 0) a txid txout =
      Some chan /\
    channel
      (final_state
         (snd (funder_run (test_state 1000000 0)
                 (test_funder_world all_ff_channel_id 1033189)))
         (test_state 1000000 0)) = Some chan.
Proof.
  destruct (@funder_success_dialogue test_externals test_points 10
              (test_state 1000000 0)
              (test_funder_world all_ff_channel_id 1033189)
              (fst (funder_run (test_state 1000000 0)
                      (test_funder_world all_ff_channel_id 1033189)))
              (final_state
                 (snd (funder_run (test_state 1000000 0)
                         (test_funder_world all_ff_channel_id 1033189)))
                 (test_state 1000000 0))
              (final_world
                 (snd (funder_run (test_state 1000000 0)
                         (test_funder_world all_ff_channel_id 1033189)))
                 test_no_peer))
    as (a & txid & txout & fs & chan & Hchan & _ & Hstate & _).
  - vm_compute. reflexivity.
  - exists a, txid, txout, chan. split; [exact Hchan | exact Hstate].
Defined.

Lemma fundee_success_dialogue_witness :
  exists o fc chan,
    Open_channel (test_open test_id 500000 100000000) = Open_channel o /\
    fundee_channel test_points (test_state 0 0) o fc = Some chan.
Proof.
  destruct (@fundee_success_dialogue test_externals test_points 1000 20000
              (Open_channel (test_open test_id 500000 100000000))
              (test_state 0 0) (test_fundee_world test_id 533189)
              (fst (fundee_run test_id 500000 100000000
                      (test_fundee_world test_id 533189)))
              (final_state
                 (snd (fundee_run test_id 500000 100000000
                         (test_fundee_world test_id 533189)))
                 (test_state 0 0))
              (final_world
                 (snd (fundee_run test_id 500000 100000000
                         (test_fundee_world test_id 533189)))
                 test_no_peer))
    as (o & m & fc & chan & Hmsg & Hchan & _).
  - vm_compute. reflexivity.
  - exists o, fc, chan. split; [exact Hmsg | exact Hchan].
Defined.

Lemma signatures_sent_to_peer_witness :
  exists a txid txout chan,
    funder_channel test_points (test_state 1000000 0) a txid txout =
      Some chan /\
    test_funding_created_sent =
      funder_funding_created test_points (test_state 1000000 0)
        a txid txout chan.
Proof.
  pose proof (@signatures_sent_to_peer test_externals test_points
                10 1000 20000 (Open_channel (test_open test_id 500000 0))
                (test_state 1000000 0)
                (test_funder_world all_ff_channel_id 1033189)) as [H _].
  destruct (H _ _ (surjective_pairing _) test_funding_created_sent true)
    as (a & txid & txout & chan & _ & _ & Hchan & Hmsg).
  - apply (nth_error_In _ 4). vm_compute. reflexivity.
  - exists a, txid, txout, chan. split; [exact Hchan | exact Hmsg].
Defined.

(* The peer asks for 3 confirmations, we allow 2. *)
Lemma funder_rejects_after_accept_channel_witness :
  failure
    (snd (open_channel (E:=test_externals) test_points 2
            (test_state 1000000 0)
            (test_funder_world all_ff_channel_id 1033189))) =
  Some (WIRE_OPENING_BAD_PARAM, "minimum_depth %u larger than %u").
Proof.
  pose proof (@funder_rejects_after_accept_channel test_externals
                test_points 2 (test_state 1000000 0)
                (test_funder_world all_ff_channel_id 1033189)
                _ _ (surjective_pairing _)) as [H _].
  apply (H (test_accept all_ff_channel_id)).
  - vm_compute. reflexivity.
  - reflexivity.
  - vm_compute. reflexivity.
Defined.

Lemma our_commit_signature_passes_peer_check_witness :
  check_commit_sig (E:=test_externals) 63 33 500
    (sign_remote_commit (test_state 1000000 0) 33 63 500) = true.
Proof.
  apply (@our_commit_signature_passes_peer_check test_externals).
  - intros t i wscript priv pub. cbn.
    destruct (priv =? 0); intros Hpub; [discriminate Hpub|].
    injection Hpub as <-. apply Z.eqb_refl.
  - intros a b.
    change (1000 * Z.min a b + Z.max a b = 1000 * Z.min b a + Z.max b a).
    lia.
  - vm_compute. reflexivity.
Defined.

(* The fundee session: the descriptor goes back after the result. *)
Lemma peer_stream_unused_after_handback_witness :
  existsb is_failed_status
    (firstn 6 (fst (main (E:=test_externals) ["opening"] (test_state 0 0)
                      test_session))) = false /\
  existsb is_peer_io [EvReqRead (Some (@Opening_exit_req test_externals))] =
    false.
Proof.
  destruct (@peer_stream_unused_after_handback test_externals ["opening"]
              (test_state 0 0) test_session _ _ (surjective_pairing _)
              (firstn 6 (fst (main (E:=test_externals) ["opening"]
                                (test_state 0 0) test_session)))
              [EvReqRead (Some (@Opening_exit_req test_externals))])
    as (Hbefore & Hafter & _).
  - vm_compute. reflexivity.
  - split; [exact Hbefore | exact Hafter].
Defined.

Lemma main_skips_unknown_role_witness :
  existsb is_success
    (fst (main (E:=test_externals) ["opening"] (test_state 0 0)
            test_session_unknown_role)) = false /\
  nth_error
    (fst (main (E:=test_externals) ["opening"] (test_state 0 0)
            test_session_unknown_role)) 2 = Some EvFdPass.
Proof.
  destruct (@main_skips_unknown_role test_externals ["opening"]
              (test_state 0 0) test_session_unknown_role
              _ _ (surjective_pairing _)
              (Some (@Other_control_msg test_externals 99)))
    as (Hsuccess & _ & Hpass & _).
  - vm_compute. reflexivity.
  - reflexivity.
  - reflexivity.
  - split; [exact Hsuccess | exact Hpass].
Defined.

Lemma main_start_up_witness :
  main (E:=test_externals) ["opening"; "--version"] (test_state 0 0)
    test_session = ([EvStdout "test"], Exit ExitOk) /\
  snd (main (E:=test_externals) ["opening"] (test_state 0 0)
         test_session_no_init) =
    Exit (ExitFailed WIRE_OPENING_BAD_COMMAND "%s").
Proof.
  split.
  - apply (proj1 (@main_start_up test_externals ["opening"]
                    (test_state 0 0) test_session)).
  - pose proof (proj2 (@main_start_up test_externals ["opening"]
                         (test_state 0 0) test_session_no_init)
                  _ _ (surjective_pairing _)) as [H _].
    apply (H (Some (@Opening_exit_req test_externals))).
    + vm_compute. reflexivity.
    + reflexivity.
Defined.

Lemma main_open_channel_from_init_and_keys_witness :
  exists f rv p d sh,
    hkdf_sha256_keys (Externals:=test_externals) 7 = (f, rv, p, d, sh) /\
    pubkey_from_privkey f = Some (oc_funding_pubkey test_open_sent) /\
    secp256k1_ec_pubkey_create (shachain_from_seed sh (2 ^ 48 - 1)) =
      Some (oc_first_per_commitment_point test_open_sent).
Proof.
  destruct (@main_open_channel_from_init_and_keys test_externals ["opening"]
              (test_state 0 0) test_session_funder
              _ _ (surjective_pairing _) test_open_sent true)
    as (init & sat & push & feerate & depth & f & rv & p & d & sh &
        Hinit & _ & _ & Hkeys & Hf & _ & _ & _ & Hpc & _).
  - apply (nth_error_In _ 2). vm_compute. reflexivity.
  - vm_compute in Hinit. injection Hinit as <-.
    exists f, rv, p, d, sh. split; [exact Hkeys|]. split; [exact Hf | exact Hpc].
Defined.

End MoreRuns.
